(** * Cryptocurrency API pipeline: fetch, append store, poll loop, reshape, filter

    A shallow embedding of [code_2.py] (classes [CryptoAPIHandler] and
    [DataTransformer]) and the properties of its pipeline.

    Conventions of the embedding.
    - Numbers of the payload and of the table are rationals ([Q]); the
      rounding of binary floating point is not described.
    - The remote endpoint, the wall clock and the output file are the
      components of an explicit [World]; every method of the handler is a
      computation over it that either returns a value or raises a Python
      exception ([Result]).
    - [pandas], [requests] and [json] are libraries: their functions are
      described by what the calls of this program rely on. *)

From Stdlib Require Import String Ascii List ZArith QArith Qreduction Bool Arith Lia.
From Stdlib Require PrimFloat PrimInt63.
Import ListNotations.

#[local] Set Warnings "-register-all".

Close Scope Q_scope.
Close Scope Z_scope.
Local Open Scope string_scope.
Local Open Scope list_scope.

(* ===================================================================== *)
(** * Python values that travel through the program                       *)
(* ===================================================================== *)

(** What [json.loads] builds: [None], [bool], numbers, [str], [list], [dict].
    A [dict] is kept as its items in insertion order (keys are distinct). *)
Inductive json : Type :=
| JNull
| JBool (b : bool)
| JNum (q : Q)
| JStr (s : string)
| JArr (items : list json)
| JObj (members : list (string * json)).

(** Python truth value, as tested by [if data:]. *)
Definition truthy (v : json) : bool :=
  match v with
  | JNull => false
  | JBool b => b
  | JNum q => negb (Qeq_bool q 0%Q)
  | JStr s => negb (String.eqb s EmptyString)
  | JArr items => match items with [] => false | _ => true end
  | JObj members => match members with [] => false | _ => true end
  end.

Definition is_dict (v : json) : bool :=
  match v with JObj _ => true | _ => false end.

(** Exceptions that can leave the functions of this program.  The first
    group is [requests.exceptions]; [OutsideModel] stands for the behaviour
    of a library on an input shape that this development does not describe. *)
Inductive exn : Type :=
| ConnectionError | ProxyError | SSLError | ConnectTimeout
| ReadTimeout | Timeout | TooManyRedirects | ChunkedEncodingError
| JSONDecodeError
| KeyError (key : string)
| TypeError
| NotImplementedError
| FileNotFoundError
| EmptyDataError
| ParserError
| SyntaxError
| OutsideModel.

Inductive Result (A : Type) : Type :=
| Ok (a : A)
| Raise (e : exn).
Arguments Ok {A} a.
Arguments Raise {A} e.

(** Python dictionaries with string keys, in insertion order. *)
Module Dict.

Definition t (A : Type) : Type := list (string * A).

Fixpoint get {A} (k : string) (d : t A) : option A :=
  match d with
  | [] => None
  | (k', v) :: d' => if String.eqb k k' then Some v else get k d'
  end.

(** [d[k] = v]: an existing key keeps its position, a new key goes last. *)
Fixpoint set {A} (k : string) (v : A) (d : t A) : t A :=
  match d with
  | [] => [(k, v)]
  | (k', v') :: d' =>
      if String.eqb k k' then (k', v) :: d' else (k', v') :: set k v d'
  end.

(** [{**d1, **d2}] *)
Definition merge {A} (d1 d2 : t A) : t A :=
  fold_left (fun acc kv => set (fst kv) (snd kv) acc) d2 d1.

Definition keys {A} (d : t A) : list string := map fst d.

End Dict.

(* ===================================================================== *)
(** * Data frames                                                         *)
(* ===================================================================== *)

(** One cell of a frame.  [NaN] is the missing value; [Stamp] a
    [pandas.Timestamp] (seconds of the wall clock); [Obj] a Python object
    kept as it is (a list of the payload).  [FromText c] is the value that
    [pd.read_csv] holds for a field in which the cell [c] was written: it is
    inferred from the text of the field and of the rest of its column (a
    timestamp comes back as a string, a string of digits as a number), and
    that inference is not described.  Such a cell is in a loaded frame only:
    the program writes no frame that it has loaded. *)
Inductive cell : Type :=
| NaN
| Num (q : Q)
| Text (s : string)
| Flag (b : bool)
| Stamp (t : Z)
| Obj (v : json)
| FromText (written : cell).

Definition cell_of_json (v : json) : cell :=
  match v with
  | JNull => NaN
  | JBool b => Flag b
  | JNum q => Num q
  | JStr s => Text s
  | JArr _ | JObj _ => Obj v
  end.

(** A frame: column labels and, row by row, one cell per column. *)
Record DataFrame : Type := mkFrame {
  columns : list string;
  rows : list (list cell)
}.

(** [pd.DataFrame()] *)
Definition empty_frame : DataFrame := mkFrame [] [].

Module Frame.

Fixpoint index_of (c : string) (cols : list string) : option nat :=
  match cols with
  | [] => None
  | c' :: cols' =>
      if String.eqb c c' then Some 0
      else option_map S (index_of c cols')
  end.

(** [df.at[row, c]] for a row of the frame. *)
Definition at_ (df : DataFrame) (row : list cell) (c : string) : option cell :=
  match index_of c (columns df) with
  | Some i => nth_error row i
  | None => None
  end.

Fixpoint replace_nth {A} (i : nat) (x : A) (l : list A) : list A :=
  match i, l with
  | _, [] => []
  | O, _ :: l' => x :: l'
  | S i', y :: l' => y :: replace_nth i' x l'
  end.

(** [df[c] = v] with a scalar [v]: the column is overwritten where it
    exists and added as the last column otherwise; every row gets [v]. *)
Definition setitem (df : DataFrame) (c : string) (v : cell) : DataFrame :=
  match index_of c (columns df) with
  | Some i => mkFrame (columns df) (map (replace_nth i v) (rows df))
  | None => mkFrame (columns df ++ [c]) (map (fun r => r ++ [v]) (rows df))
  end.

(** Labels of a list of dictionaries in order of first appearance. *)
Fixpoint union_keys (acc : list string) (ks : list string) : list string :=
  match ks with
  | [] => acc
  | k :: ks' =>
      union_keys (if existsb (String.eqb k) acc then acc else acc ++ [k]) ks'
  end.

(** [pd.DataFrame(list_of_dicts)]: a key absent from a record is [NaN]. *)
Definition of_dicts (ds : list (Dict.t json)) : DataFrame :=
  let cols := fold_left (fun acc d => union_keys acc (Dict.keys d)) ds [] in
  mkFrame cols
    (map (fun d => map (fun c => match Dict.get c d with
                                 | Some v => cell_of_json v
                                 | None => NaN
                                 end) cols) ds).

End Frame.

(** ** [pandas.json_normalize] *)

Definition new_key (key_string key : string) : string :=
  if String.eqb key_string EmptyString then key else key_string ++ "." ++ key.

(** [_normalise_json]: nested dictionaries become dotted paths. *)
Fixpoint normalise_json (data : json) (key_string : string)
         (normalized_dict : Dict.t json) : Dict.t json :=
  match data with
  | JObj members =>
      (fix items (ms : list (string * json)) (acc : Dict.t json) : Dict.t json :=
         match ms with
         | [] => acc
         | (key, value) :: ms' =>
             items ms' (normalise_json value (new_key key_string key) acc)
         end) members normalized_dict
  | _ => Dict.set key_string data normalized_dict
  end.

(** [_normalise_json_ordered]: top-level scalars first, flattened nested
    fields after them. *)
Definition normalise_json_ordered (members : list (string * json)) : Dict.t json :=
  let top_dict := filter (fun kv => negb (is_dict (snd kv))) members in
  let nested_dict :=
    normalise_json (JObj (filter (fun kv => is_dict (snd kv)) members)) EmptyString [] in
  Dict.merge top_dict nested_dict.

(** One element of the list given to [json_normalize]. *)
Definition simple_json_normalize (row : json) : Result (Dict.t json) :=
  match row with
  | JObj members => Ok (normalise_json_ordered members)
  | JArr _ => Raise OutsideModel
  | _ => Ok []
  end.

Fixpoint normalize_all (ds : list json) : Result (list (Dict.t json)) :=
  match ds with
  | [] => Ok []
  | d :: ds' =>
      match simple_json_normalize d with
      | Raise e => Raise e
      | Ok r =>
          match normalize_all ds' with
          | Raise e => Raise e
          | Ok rs => Ok (r :: rs)
          end
      end
  end.

Definition json_normalize (data : json) : Result DataFrame :=
  match data with
  | JArr [] => Ok empty_frame
  | JArr ds =>
      match normalize_all ds with
      | Ok rs => Ok (Frame.of_dicts rs)
      | Raise e => Raise e
      end
  | JObj members => Ok (Frame.of_dicts [normalise_json_ordered members])
  | _ => Raise NotImplementedError
  end.

(* ===================================================================== *)
(** * The world of the handler and its computations                       *)
(* ===================================================================== *)

(** [response.text] as [json.loads] sees it: a document, or text that is
    not JSON. *)
Inductive body : Type :=
| Malformed
| Parsed (doc : json).

(** What one [session.get] meets: an exception of [requests], or a
    completed exchange with its body. *)
Inductive exchange : Type :=
| Fails (e : exn)
| Responds (text : body).

(** Lines printed by the handler (the numbers of the f-strings are kept
    as numbers). *)
Inductive message : Type :=
| RunPulling (run runs : nat) (at_time : Z)
| RunCompleted (run interval : nat)
| ErrorFetching (e : exn)
| NoDataFileFound.

(** Observable actions, in the order in which they happen. *)
Inductive event : Type :=
| Get
| Print (m : message)
| Sleep (seconds : nat).

(** A CSV file: its lines, each a list of fields.  The text of a single
    field is not described: a field is the cell that was written. *)
Definition csv : Type := list (list cell).

Record World : Type := mkWorld {
  remote : nat -> exchange;        (* the k-th exchange with the endpoint *)
  requests_sent : nat;
  now : Z;                         (* wall clock, in seconds *)
  output_file : option csv;        (* [None]: no file at [self.output_file] *)
  dataframe : DataFrame;           (* [self.dataframe] *)
  trace : list event
}.

Definition M (A : Type) : Type := World -> Result A * World.

Definition ret {A} (a : A) : M A := fun w => (Ok a, w).

Definition raise {A} (e : exn) : M A := fun w => (Raise e, w).

Definition bind {A B} (m : M A) (k : A -> M B) : M B :=
  fun w =>
    match m w with
    | (Ok a, w') => k a w'
    | (Raise e, w') => (Raise e, w')
    end.

Declare Scope py_scope.
Delimit Scope py_scope with py.
Notation "x <- m ;; k" := (bind m (fun x => k))
  (at level 61, m at next level, right associativity) : py_scope.
Notation "m ;; k" := (bind m (fun _ => k))
  (at level 61, right associativity) : py_scope.
Local Open Scope py_scope.

Definition lift {A} (r : Result A) : M A := fun w => (r, w).

(** Class membership of a raised exception ([isinstance]), following the
    hierarchy of [requests.exceptions]. *)
Definition isinstance (e cls : exn) : bool :=
  match cls, e with
  | ConnectionError, (ConnectionError | ProxyError | SSLError | ConnectTimeout) => true
  | Timeout, (Timeout | ConnectTimeout | ReadTimeout) => true
  | TooManyRedirects, TooManyRedirects => true
  | _, _ => false
  end.

(** [try: body except (classes) as e: handler e] *)
Definition try_except {A} (m : M A) (classes : list exn) (handler : exn -> M A) : M A :=
  fun w =>
    match m w with
    | (Ok a, w') => (Ok a, w')
    | (Raise e, w') =>
        if existsb (isinstance e) classes then handler e w' else (Raise e, w')
    end.

Definition emit (ev : event) : M unit :=
  fun w => (Ok tt, mkWorld (remote w) (requests_sent w) (now w) (output_file w)
                           (dataframe w) (trace w ++ [ev])).

Definition print (m : message) : M unit := emit (Print m).

(** [datetime.now()], [pd.to_datetime('now')] *)
Definition clock : M Z := fun w => (Ok (now w), w).

(** [sleep(interval)]: the only place where time passes. *)
Definition sleep (seconds : nat) : M unit :=
  fun w => (Ok tt, mkWorld (remote w) (requests_sent w) (now w + Z.of_nat seconds)%Z
                           (output_file w) (dataframe w) (trace w ++ [Sleep seconds])).

(** [self.session.get(self.url, params=self.parameters)] *)
Definition session_get : M body :=
  fun w =>
    let w' := mkWorld (remote w) (S (requests_sent w)) (now w) (output_file w)
                      (dataframe w) (trace w ++ [Get]) in
    match remote w (requests_sent w) with
    | Fails e => (Raise e, w')
    | Responds text => (Ok text, w')
    end.

(** [json.loads(response.text)] *)
Definition json_loads (text : body) : M json :=
  match text with
  | Malformed => raise JSONDecodeError
  | Parsed doc => ret doc
  end.

(** [obj[key]] with a string key. *)
Definition getitem (obj : json) (key : string) : M json :=
  match obj with
  | JObj members =>
      match Dict.get key members with
      | Some v => ret v
      | None => raise (KeyError key)
      end
  | _ => raise TypeError
  end.

Definition set_dataframe (df : DataFrame) : M unit :=
  fun w => (Ok tt, mkWorld (remote w) (requests_sent w) (now w) (output_file w)
                           df (trace w)).

Definition get_dataframe : M DataFrame := fun w => (Ok (dataframe w), w).

(** [os.path.isfile(self.output_file)] *)
Definition isfile : M bool :=
  fun w => (Ok (match output_file w with Some _ => true | None => false end), w).

Definition header_line (df : DataFrame) : list cell := map Text (columns df).

(** [df.to_csv(path, index=False, header=True)]: the file is (re)written
    with the column labels and then the rows. *)
Definition to_csv_create (df : DataFrame) : M unit :=
  fun w => (Ok tt, mkWorld (remote w) (requests_sent w) (now w)
                           (Some (header_line df :: rows df)) (dataframe w) (trace w)).

(** [df.to_csv(path, index=False, mode='a', header=False)]: the rows go
    after what the file holds. *)
Definition to_csv_append (df : DataFrame) : M unit :=
  fun w => (Ok tt, mkWorld (remote w) (requests_sent w) (now w)
                           (Some (match output_file w with
                                  | Some lines => lines ++ rows df
                                  | None => rows df
                                  end)) (dataframe w) (trace w)).

Definition cell_label (c : cell) : string :=
  match c with Text s => s | _ => EmptyString end.

Fixpoint pad (n : nat) (fields : list cell) : list cell :=
  match n, fields with
  | O, _ => []
  | S n', [] => NaN :: pad n' []
  | S n', c :: fields' => c :: pad n' fields'
  end.

(** A space or a tab. *)
Definition is_space (a : ascii) : bool :=
  Ascii.eqb a " "%char || Ascii.eqb a "009"%char.

Fixpoint whitespace (s : string) : bool :=
  match s with
  | EmptyString => true
  | String a s' => is_space a && whitespace s'
  end.

(** A blank line of the file: a line without any field, a lone missing
    value (written as nothing), or a lone string of spaces and tabs (the
    lone empty string is written between quotes and is a field). *)
Definition blank (line : list cell) : bool :=
  match line with
  | [] => true
  | [NaN] => true
  | [Text (String a s)] => whitespace (String a s)
  | _ => false
  end.

(** A label that is read as it was written: a string that is not empty. *)
Definition label_described (c : cell) : bool :=
  match c with
  | Text (String _ _) => true
  | _ => false
  end.

Fixpoint distinct (labels : list string) : bool :=
  match labels with
  | [] => true
  | l :: labels' => negb (existsb (String.eqb l) labels') && distinct labels'
  end.

(** A header whose labels are read as they were written: strings, none
    empty, no two the same. *)
Definition labels_described (header : list cell) : bool :=
  forallb label_described header && distinct (map cell_label header).

(** What is read from one field: a missing value was written as an empty
    field and is read as missing; any other field is typed anew from its
    text. *)
Definition reread (c : cell) : cell :=
  match c with
  | NaN => NaN
  | _ => FromText c
  end.

(** The parser of [pd.read_csv].  Blank lines are skipped; a file without
    any other line is refused ([EmptyDataError]).  The first line gives the
    labels.  The first data line sets the number of fields that the parser
    expects when it has more than the header, its leading fields then being
    row labels, which a frame does not show; a later line with more fields
    than expected is refused ([ParserError]), a line with fewer is completed
    with [NaN].  The names that the parser makes up for an empty or a
    repeated label are not described. *)
Definition parse_csv (lines : csv) : Result DataFrame :=
  match filter (fun l => negb (blank l)) lines with
  | [] => Raise EmptyDataError
  | header :: data =>
      let width := match data with
                   | [] => List.length header
                   | first :: _ => Nat.max (List.length header) (List.length first)
                   end in
      if forallb (fun l => Nat.leb (List.length l) width) data
      then if labels_described header
           then Ok (mkFrame (map cell_label header)
                            (map (fun l => skipn (width - List.length header)
                                                 (pad width (map reread l))) data))
           else Raise OutsideModel
      else Raise ParserError
  end.

(** [pd.read_csv(self.output_file)] *)
Definition read_csv : M DataFrame :=
  fun w =>
    match output_file w with
    | Some lines => (parse_csv lines, w)
    | None => (Raise FileNotFoundError, w)
    end.

(** [for i in range(n): body i] *)
Fixpoint for_range_from (i n : nat) (body : nat -> M unit) : M unit :=
  match n with
  | O => ret tt
  | S n' => body i ;; for_range_from (S i) n' body
  end.

Definition for_range (n : nat) (body : nat -> M unit) : M unit :=
  for_range_from 0 n body.

(* ===================================================================== *)
(** * class CryptoAPIHandler                                              *)
(* ===================================================================== *)

Module CryptoAPIHandler.

(** [fetch_data(self)] *)
Definition fetch_data : M json :=
  try_except
    (response <- session_get ;;
     data <- json_loads response ;;
     getitem data "data")
    [ConnectionError; Timeout; TooManyRedirects]
    (fun e => print (ErrorFetching e) ;; ret JNull).

(** [save_data(self, data, save_csv=True)] *)
Definition save_data (data : json) (save_csv : bool) : M unit :=
  df <- lift (json_normalize data) ;;
  set_dataframe df ;;
  t <- clock ;;
  df <- get_dataframe ;;
  set_dataframe (Frame.setitem df "timestamp" (Stamp t)) ;;
  if save_csv then
    present <- isfile ;;
    df <- get_dataframe ;;
    if negb present then to_csv_create df else to_csv_append df
  else ret tt.

(** [load_data(self)]: [None] is Python's [None]. *)
Definition load_data : M (option DataFrame) :=
  present <- isfile ;;
  if present then
    df <- read_csv ;; ret (Some df)
  else
    print NoDataFileFound ;; ret None.

(** The body of the loop of [automate_data_pull], for index [i]. *)
Definition pull (interval runs i : nat) : M unit :=
  t <- clock ;;
  print (RunPulling (i + 1) runs t) ;;
  data <- fetch_data ;;
  (if truthy data then save_data data true else ret tt) ;;
  print (RunCompleted (i + 1) interval) ;;
  sleep interval.

(** [automate_data_pull(self, interval, runs)]: [interval] is a number of
    seconds and [runs] a count. *)
Definition automate_data_pull (interval runs : nat) : M unit :=
  for_range runs (pull interval runs).

End CryptoAPIHandler.

(* ===================================================================== *)
(** * class DataTransformer                                               *)
(* ===================================================================== *)

(** A row of a loaded table, seen through the columns that the transformer
    and the filter read.  [None] is a missing value ([NaN]); the cells of
    the remaining columns are carried along in [others]. *)
Record Row : Type := mkRow {
  name : option string;
  quote_USD_percent_change_1h : option Q;
  quote_USD_percent_change_24h : option Q;
  quote_USD_percent_change_7d : option Q;
  quote_USD_percent_change_30d : option Q;
  quote_USD_percent_change_60d : option Q;
  quote_USD_percent_change_90d : option Q;
  others : list cell
}.

Definition Table : Type := list Row.

(** A row of the tidy frame returned by [transform_data]. *)
Record Tidy : Type := mkTidy {
  tidy_name : string;
  Percent_Change : string;
  values : Q
}.

Definition dquote : string := String (ascii_of_nat 34) EmptyString.
Definition backslash : ascii := ascii_of_nat 92.

Module DataTransformer.

Definition percent_columns : list string :=
  [ "quote.USD.percent_change_1h"; "quote.USD.percent_change_24h";
    "quote.USD.percent_change_7d"; "quote.USD.percent_change_30d";
    "quote.USD.percent_change_60d"; "quote.USD.percent_change_90d" ].

Definition horizon_labels : list string :=
  [ "1h"; "24h"; "7d"; "30d"; "60d"; "90d" ].

(** [row[c]] for one of the selected columns. *)
Definition column (c : string) (r : Row) : option Q :=
  if String.eqb c "quote.USD.percent_change_1h" then quote_USD_percent_change_1h r
  else if String.eqb c "quote.USD.percent_change_24h" then quote_USD_percent_change_24h r
  else if String.eqb c "quote.USD.percent_change_7d" then quote_USD_percent_change_7d r
  else if String.eqb c "quote.USD.percent_change_30d" then quote_USD_percent_change_30d r
  else if String.eqb c "quote.USD.percent_change_60d" then quote_USD_percent_change_60d r
  else if String.eqb c "quote.USD.percent_change_90d" then quote_USD_percent_change_90d r
  else None.

(** One step of [groupby('name', sort=False)]: the row joins the group of
    its key, a new key opens a group after the existing ones. *)
Fixpoint add_to_group (key : string) (r : Row) (groups : list (string * list Row))
  : list (string * list Row) :=
  match groups with
  | [] => [(key, [r])]
  | (k, rs) :: groups' =>
      if String.eqb key k then (k, rs ++ [r]) :: groups'
      else (k, rs) :: add_to_group key r groups'
  end.

(** [dataframe.groupby('name', sort=False)]: rows whose key is missing
    belong to no group. *)
Definition groupby_name (dataframe : Table) : list (string * list Row) :=
  fold_left (fun groups r =>
               match name r with
               | Some key => add_to_group key r groups
               | None => groups
               end) dataframe [].

(** The values of a column that are not missing. *)
Fixpoint dropna (xs : list (option Q)) : list Q :=
  match xs with
  | [] => []
  | Some x :: xs' => x :: dropna xs'
  | None :: xs' => dropna xs'
  end.

Definition total (xs : list Q) : Q := fold_left Qplus xs 0%Q.

(** [.mean()] of one column of one group: missing values are skipped, and
    a column without any value has the missing value as its mean.  The
    numbers are exact rationals here: this module settles which entries the
    result has, their order and their labels.  The values as the program
    computes them, in binary64, are those of [Binary64] below. *)
Definition mean (xs : list (option Q)) : option Q :=
  match dropna xs with
  | [] => None
  | vs => Some (Qred (total vs / inject_Z (Z.of_nat (List.length vs))))
  end.

(** [groupby(...)[[...]].mean()]: one row per group, one mean per column. *)
Definition grouped_mean (dataframe : Table)
  : list (string * list (string * option Q)) :=
  map (fun g => (fst g,
                 map (fun c => (c, mean (map (column c) (snd g)))) percent_columns))
      (groupby_name dataframe).

(** [.stack()], called without arguments: the columns of each row become
    rows of their own, in order; an entry whose value is missing is left
    out ([dropna=True]). *)
Definition stack (grouped : list (string * list (string * option Q)))
  : list (string * string * Q) :=
  flat_map (fun g =>
              flat_map (fun cv => match snd cv with
                                  | Some v => [(fst g, fst cv, v)]
                                  | None => []
                                  end) (snd g)) grouped.

(** [Series.replace(to_replace, value)] with two lists. *)
Fixpoint replace (to_replace value : list string) (x : string) : string :=
  match to_replace, value with
  | a :: to_replace', b :: value' =>
      if String.eqb x a then b else replace to_replace' value' x
  | _, _ => x
  end.

(** [transform_data(dataframe)] *)
Definition transform_data (dataframe : Table) : list Tidy :=
  let df_grouped := grouped_mean dataframe in
  let df_stacked := stack df_grouped in
  map (fun e => match e with
                | (n, level_1, v) =>
                    mkTidy n (replace percent_columns horizon_labels level_1) v
                end) df_stacked.

(** ** [DataFrame.query] on the expressions built by [filter_coin_data] *)

(** Result of reading a string literal after its opening quote. *)
Inductive literal : Type :=
| Closed (value rest : string)
| Unterminated
| NotDescribed.

(** The character denoted by a backslash followed by [c]. *)
Definition escape (c : ascii) : option string :=
  let n := nat_of_ascii c in
  let one k := Some (String (ascii_of_nat k) EmptyString) in
  if Nat.eqb n 92 then one 92            (* \\ *)
  else if Nat.eqb n 39 then one 39       (* \' *)
  else if Nat.eqb n 34 then one 34       (* \dquote *)
  else if Nat.eqb n 97 then one 7        (* \a *)
  else if Nat.eqb n 98 then one 8        (* \b *)
  else if Nat.eqb n 102 then one 12      (* \f *)
  else if Nat.eqb n 110 then one 10      (* \n *)
  else if Nat.eqb n 114 then one 13      (* \r *)
  else if Nat.eqb n 116 then one 9       (* \t *)
  else if Nat.eqb n 118 then one 11      (* \v *)
  else if (Nat.leb 48 n && Nat.leb n 55) (* octal *)
          || Nat.eqb n 120 || Nat.eqb n 78 || Nat.eqb n 117 || Nat.eqb n 85
          || Nat.eqb n 10 || Nat.eqb n 13
       then None
  else Some (String backslash (String c EmptyString)).

(** Reads the body of a literal opened by a double quote: up to the first
    double quote that no backslash protects. *)
Fixpoint scan_literal (s : string) : literal :=
  match s with
  | EmptyString => Unterminated
  | String c s' =>
      let n := nat_of_ascii c in
      if Nat.eqb n 34 then Closed EmptyString s'
      else if Nat.eqb n 10 || Nat.eqb n 13 then NotDescribed
      else if Nat.eqb n 92 then
        match s' with
        | EmptyString => Unterminated
        | String d s'' =>
            match escape d, scan_literal s'' with
            | Some v, Closed value rest => Closed (v ++ value) rest
            | Some _, Unterminated => Unterminated
            | _, _ => NotDescribed
            end
        end
      else
        match scan_literal s' with
        | Closed value rest => Closed (String c value) rest
        | other => other
        end
  end.

Fixpoint strip_prefix (p s : string) : option string :=
  match p, s with
  | EmptyString, _ => Some s
  | String a p', String b s' => if Ascii.eqb a b then strip_prefix p' s' else None
  | String _ _, EmptyString => None
  end.

Definition name_is (value : string) (r : Row) : bool :=
  match name r with
  | Some n => String.eqb n value
  | None => false
  end.

(** [dataframe.query(expr)] for an expression that compares the column
    [name] with one string literal.  An expression whose literal never
    closes is not Python: [SyntaxError]. *)
Definition query (dataframe : Table) (expr : string) : Result Table :=
  match strip_prefix ("name == " ++ dquote) expr with
  | None => Raise OutsideModel
  | Some after_quote =>
      match scan_literal after_quote with
      | Closed value EmptyString => Ok (filter (name_is value) dataframe)
      | Closed _ _ => Raise OutsideModel
      | Unterminated => Raise SyntaxError
      | NotDescribed => Raise OutsideModel
      end
  end.

(** [filter_coin_data(dataframe, coin_name)] *)
Definition filter_coin_data (dataframe : Table) (coin_name : string) : Result Table :=
  query dataframe ("name == " ++ dquote ++ coin_name ++ dquote).

End DataTransformer.

(* ===================================================================== *)
(** * Vocabulary of the properties                                        *)
(* ===================================================================== *)

Import CryptoAPIHandler DataTransformer.

(** Number of [session.get] calls in a trace. *)
Fixpoint fetch_attempts (tr : list event) : nat :=
  match tr with
  | [] => 0
  | Get :: tr' => S (fetch_attempts tr')
  | _ :: tr' => fetch_attempts tr'
  end.

(** Number of calls of [sleep]. *)
Fixpoint sleeps (tr : list event) : nat :=
  match tr with
  | [] => 0
  | Sleep _ :: tr' => S (sleeps tr')
  | _ :: tr' => sleeps tr'
  end.

(** Number of calls of [sleep] with the given duration. *)
Fixpoint sleeps_of (seconds : nat) (tr : list event) : nat :=
  match tr with
  | [] => 0
  | Sleep s :: tr' => (if Nat.eqb s seconds then 1 else 0) + sleeps_of seconds tr'
  | _ :: tr' => sleeps_of seconds tr'
  end.

(** The exceptions named by the [except] clause of [fetch_data]. *)
Definition transport_failure (e : exn) : bool :=
  existsb (isinstance e) [ConnectionError; Timeout; TooManyRedirects].

(** A batch of records: a JSON array of objects. *)
Definition batch (records : list (list (string * json))) : json :=
  JArr (map JObj records).

Definition record_batch (data : json) : bool :=
  match data with
  | JArr items => forallb is_dict items
  | _ => false
  end.

(** An exchange after which [fetch_data] returns: it fails in transport
    (the fetch fails), or its document has a [data] member that is a batch
    of records or an empty value (the fetch succeeds). *)
Definition fetch_returns (x : exchange) : bool :=
  match x with
  | Fails e => transport_failure e
  | Responds (Parsed (JObj members)) =>
      match Dict.get "data" members with
      | Some data => record_batch data || negb (truthy data)
      | None => false
      end
  | Responds _ => false
  end.

(** A completed exchange whose body is not JSON or has no top-level
    [data] member. *)
Definition malformed (text : body) : bool :=
  match text with
  | Malformed => true
  | Parsed (JObj members) =>
      match Dict.get "data" members with
      | Some _ => false
      | None => true
      end
  | Parsed _ => true
  end.

(** The frame that [save_data] builds from a batch at clock reading [t]. *)
Definition stamped (records : list (list (string * json))) (t : Z) : DataFrame :=
  Frame.setitem (Frame.of_dicts (map normalise_json_ordered records))
                "timestamp" (Stamp t).



(** A frame whose rows have one cell per column. *)
Definition rectangular (df : DataFrame) : Prop :=
  Forall (fun r => List.length r = List.length (columns df)) (rows df).

(** Distinct entity names of a table in first-seen order. *)
Fixpoint entities (t : Table) : list string :=
  match t with
  | [] => []
  | r :: t' =>
      match name r with
      | Some n => n :: filter (fun m => negb (String.eqb m n)) (entities t')
      | None => entities t'
      end
  end.

(** The rows of an entity. *)
Definition rows_of (e : string) (t : Table) : Table := filter (name_is e) t.



(** The tidy rows of one entity: one per horizon whose mean exists. *)
Definition tidy_rows (e : string) (rs : Table) : list Tidy :=
  flat_map (fun ch => match mean (map (column (fst ch)) rs) with
                      | Some v => [mkTidy e (snd ch) v]
                      | None => []
                      end)
           (combine percent_columns horizon_labels).

Definition key (x : Tidy) : string * string := (tidy_name x, Percent_Change x).


(** A name that the expression language of [query] reads as it is written:
    no double quote, no backslash, no line break. *)
Definition plain (s : string) : bool :=
  forallb (fun c => let n := nat_of_ascii c in
                    negb (Nat.eqb n 34 || Nat.eqb n 92 || Nat.eqb n 10 || Nat.eqb n 13))
          (list_ascii_of_string s).

Definition bitcoin_row (h90 : option Q) : Row :=
  mkRow (Some "Bitcoin") (Some 1%Q) (Some 2%Q) (Some 3%Q) (Some 4%Q) (Some 5%Q) h90 [].

(** A world with no file, whose endpoint always answers with one record. *)
Definition sample_record : list (string * json) :=
  [ ("name", JStr "Bitcoin"); ("timestamp", JStr "remote");
    ("quote", JObj [("USD", JObj [("percent_change_1h", JNum 1%Q)])]) ].

Definition sample_world (x : exchange) (file : option csv) : World :=
  mkWorld (fun _ => x) 0 1700000000%Z file empty_frame [].

(** The world after one more [session.get]. *)
Definition after_get (w : World) : World :=
  mkWorld (remote w) (S (requests_sent w)) (now w) (output_file w)
          (dataframe w) (trace w ++ [Get]).

Definition logged (ev : event) (w : World) : World :=
  mkWorld (remote w) (requests_sent w) (now w) (output_file w)
          (dataframe w) (trace w ++ [ev]).

(** The exception that a malformed body raises in [fetch_data]. *)
Definition payload_error (text : body) : exn :=
  match text with
  | Malformed => JSONDecodeError
  | Parsed (JObj _) => KeyError "data"
  | Parsed _ => TypeError
  end.

(** What one completed iteration of the loop adds to a world: one request,
    one sleep of [interval] seconds, which is the last thing that happened. *)
Definition one_cycle (interval : nat) (w w' : World) : Prop :=
  remote w' = remote w /\
  requests_sent w' = S (requests_sent w) /\
  fetch_attempts (trace w') = S (fetch_attempts (trace w)) /\
  sleeps (trace w') = S (sleeps (trace w)) /\
  sleeps_of interval (trace w') = S (sleeps_of interval (trace w)) /\
  last (trace w') Get = Sleep interval.

(** An endpoint that answers a batch, then times out, then answers an
    empty batch, then sends text that is not JSON. *)
Definition sample_remote (k : nat) : exchange :=
  match k with
  | 0 => Responds (Parsed (JObj [("status", JNull);
                                 ("data", batch [sample_record; sample_record])]))
  | 1 => Fails Timeout
  | 2 => Responds (Parsed (JObj [("data", JArr [])]))
  | _ => Responds Malformed
  end.

Definition sample_start : World :=
  mkWorld sample_remote 0 1700000000%Z None empty_frame [].

(** The name [Bitcoin] followed by one backslash. *)
Definition bitcoin_backslash : string := "Bitcoin" ++ String backslash EmptyString.

(** The letter [a], two backslashes and the letter [b]; and the same with
    one backslash. *)
Definition a_2backslash_b : string :=
  "a" ++ String backslash (String backslash "b").
Definition a_backslash_b : string := "a" ++ String backslash "b".

Definition named (n : string) : Row :=
  mkRow (Some n) None None None None None None [].


(* ===================================================================== *)
(** * The script                                                          *)
(* ===================================================================== *)

Section Script.

(** What the script does with a loaded table: the transformation, the
    charts and the filter. *)
Variable analysis : DataFrame -> M unit.

(** The block under [if __name__ == "__main__":]. *)
Definition main : M unit :=
  automate_data_pull 60 3 ;;
  data <- fetch_data ;;
  (if truthy data then save_data data true else ret tt) ;;
  saved_data <- load_data ;;
  match saved_data with
  | Some df => analysis df
  | None => ret tt
  end.

End Script.

(* ===================================================================== *)
(** * Further vocabulary                                                  *)
(* ===================================================================== *)

(** Number of lines of the output file; none when there is no file. *)
Definition file_lines (w : World) : nat :=
  match output_file w with
  | Some lines => List.length lines
  | None => 0
  end.

(** Number of records that an iteration stores after this exchange. *)
Definition stored_rows (x : exchange) : nat :=
  match x with
  | Responds (Parsed (JObj members)) =>
      match Dict.get "data" members with
      | Some (JArr items) => if forallb is_dict items then List.length items else 0
      | _ => 0
      end
  | _ => 0
  end.

(** Records stored over [n] exchanges from the exchange [start] on. *)
Fixpoint rows_fetched (remote : nat -> exchange) (start n : nat) : nat :=
  match n with
  | O => 0
  | S n' => stored_rows (remote start) + rows_fetched remote (S start) n'
  end.

(** An exchange after which [fetch_data] returns a value that the guard
    [if data:] reads as false. *)
Definition yields_no_data (x : exchange) : bool :=
  match x with
  | Fails e => transport_failure e
  | Responds (Parsed (JObj members)) =>
      match Dict.get "data" members with
      | Some data => negb (truthy data)
      | None => false
      end
  | Responds _ => false
  end.

(** Values that [json_normalize] does not take: neither a list nor a
    dictionary. *)
Definition is_scalar (v : json) : bool :=
  match v with
  | JArr _ | JObj _ => false
  | _ => true
  end.

Definition has_name (r : Row) : bool :=
  match name r with Some _ => true | None => false end.

Definition one_backslash : string := String backslash EmptyString.

(** A world without a file whose endpoint never has data. *)
Definition silent_world : World :=
  mkWorld (fun k => match k with
                    | 0 => Fails ConnectionError
                    | 1 => Responds (Parsed (JObj [("data", JArr [])]))
                    | _ => Fails Timeout
                    end)
          0 1700000000%Z None empty_frame [].

Definition wide_record : list (string * json) :=
  [ ("name", JStr "Bitcoin"); ("symbol", JStr "BTC") ].

Definition narrow_record : list (string * json) :=
  [ ("name", JStr "Bitcoin") ].

(** The header line that a run adds: one when there was no file and
    something is stored, none otherwise. *)
Definition header_written (w : World) (stored : nat) : nat :=
  match output_file w with
  | None => if Nat.eqb stored 0 then 0 else 1
  | Some _ => 0
  end.

(** A row of the exact model that holds a name and nothing else. *)
Definition NamedRow : Type := Row.

Definition named_only (n : option string) : NamedRow :=
  mkRow n None None None None None None [].

(* ===================================================================== *)
(** * The reshaper on binary64 numbers                                    *)
(* ===================================================================== *)

(** [DataTransformer.transform_data] once more, with the numbers as the
    loaded frame holds them: binary64 floating point, a missing value being
    the float [nan].  [groupby(...).mean()] is written out as pandas runs
    it: one pass over the rows that keeps, for each group and column, a
    running sum, the rounding error carried to the next addition and the
    number of values. *)
Module Binary64.

Import PrimFloat PrimInt63.

Record Row : Type := mkRow {
  name : option string;
  quote_USD_percent_change_1h : float;
  quote_USD_percent_change_24h : float;
  quote_USD_percent_change_7d : float;
  quote_USD_percent_change_30d : float;
  quote_USD_percent_change_60d : float;
  quote_USD_percent_change_90d : float;
  others : list cell
}.

Definition Table : Type := list Row.

Record Tidy : Type := mkTidy {
  tidy_name : string;
  Percent_Change : string;
  values : float
}.

(** [x != x] *)
Definition isnan (x : float) : bool := negb (PrimFloat.eqb x x).

Definition column (c : string) (r : Row) : float :=
  if String.eqb c "quote.USD.percent_change_1h" then quote_USD_percent_change_1h r
  else if String.eqb c "quote.USD.percent_change_24h" then quote_USD_percent_change_24h r
  else if String.eqb c "quote.USD.percent_change_7d" then quote_USD_percent_change_7d r
  else if String.eqb c "quote.USD.percent_change_30d" then quote_USD_percent_change_30d r
  else if String.eqb c "quote.USD.percent_change_60d" then quote_USD_percent_change_60d r
  else if String.eqb c "quote.USD.percent_change_90d" then quote_USD_percent_change_90d r
  else nan.

(** The integer count as the division converts it. *)
Fixpoint int_of_count (n : nat) : PrimInt63.int :=
  match n with
  | O => 0%uint63
  | S k => PrimInt63.add (int_of_count k) 1%uint63
  end.

(** One output cell of the pass: [sumx], [compensation], [nobs]. *)
Record Acc : Type := mkAcc {
  sumx : float;
  compensation : float;
  nobs : nat
}.

Definition start : Acc := mkAcc 0 0 0.

(** One value met by the pass: a missing value is skipped; otherwise it is
    added with the error carried so far, and the new error is kept (or
    dropped when it is not a number). *)
Definition add_value (a : Acc) (val : float) : Acc :=
  if isnan val then a
  else
    let y := (val - compensation a)%float in
    let t := (sumx a + y)%float in
    let c := ((t - sumx a) - y)%float in
    mkAcc t (if isnan c then 0%float else c) (S (nobs a)).

(** The mean of an output cell: missing when no value was met. *)
Definition result (a : Acc) : float :=
  match nobs a with
  | O => nan
  | S _ => (sumx a / of_uint63 (int_of_count (nobs a)))%float
  end.

(** One row met by the pass, for the cells of its group. *)
Definition add_row (r : Row) (accs : list Acc) : list Acc :=
  map (fun ca => add_value (snd ca) (column (fst ca) r)) (combine percent_columns accs).

(** The row goes to the group of its key; a new key opens a group after
    the existing ones ([sort=False]). *)
Fixpoint add_to_group (key : string) (r : Row) (groups : list (string * list Acc))
  : list (string * list Acc) :=
  match groups with
  | [] => [(key, add_row r (map (fun _ => start) percent_columns))]
  | (k, accs) :: groups' =>
      if String.eqb key k then (k, add_row r accs) :: groups'
      else (k, accs) :: add_to_group key r groups'
  end.

(** [groupby('name', sort=False)[[...]].mean()] *)
Definition grouped_mean (dataframe : Table) : list (string * list (string * float)) :=
  map (fun g => (fst g,
                 map (fun ca => (fst ca, result (snd ca)))
                     (combine percent_columns (snd g))))
      (fold_left (fun groups r =>
                    match name r with
                    | Some key => add_to_group key r groups
                    | None => groups
                    end) dataframe []).

(** [.stack()], called without arguments: an entry whose value is missing
    is left out. *)
Definition stack (grouped : list (string * list (string * float)))
  : list (string * string * float) :=
  flat_map (fun g =>
              flat_map (fun cv => if isnan (snd cv) then []
                                  else [(fst g, fst cv, snd cv)]) (snd g)) grouped.

(** [transform_data(dataframe)] *)
Definition transform_data (dataframe : Table) : list Tidy :=
  let df_grouped := grouped_mean dataframe in
  let df_stacked := stack df_grouped in
  map (fun e => match e with
                | (n, level_1, v) =>
                    mkTidy n (replace percent_columns horizon_labels level_1) v
                end) df_stacked.

(** ** Vocabulary *)

(** Distinct entity names in first-seen order. *)
Fixpoint entities (t : Table) : list string :=
  match t with
  | [] => []
  | r :: t' =>
      match name r with
      | Some n => n :: filter (fun m => negb (String.eqb m n)) (entities t')
      | None => entities t'
      end
  end.

Definition name_is (value : string) (r : Row) : bool :=
  match name r with
  | Some n => String.eqb n value
  | None => false
  end.

(** The rows of an entity, in table order. *)
Definition rows_of (e : string) (t : Table) : Table := filter (name_is e) t.

(** The binary64 mean of a column: its values that are not missing are
    added in order, the rounding error of each addition being subtracted
    from the next value, and the sum is divided by their number; missing
    when there is no value. *)
Fixpoint mean_from (vals : list float) (sum carry : float) (count : nat) : float :=
  match vals with
  | [] =>
      match count with
      | O => nan
      | S _ => (sum / of_uint63 (int_of_count count))%float
      end
  | v :: vals' =>
      if isnan v then mean_from vals' sum carry count
      else
        let y := (v - carry)%float in
        let t := (sum + y)%float in
        let c := ((t - sum) - y)%float in
        mean_from vals' t (if isnan c then 0%float else c) (S count)
  end.

Definition mean_of (vals : list float) : float := mean_from vals 0 0 0.

(** The output cells of a group once its rows were met, one per column. *)
Definition cells_of (rs : Table) : list Acc :=
  fold_left (fun accs r => add_row r accs) rs (map (fun _ => start) percent_columns).

(** The tidy rows of one entity: one per horizon whose mean is a number. *)
Definition tidy_rows (e : string) (rs : Table) : list Tidy :=
  flat_map (fun ch => if isnan (mean_of (map (column (fst ch)) rs)) then []
                      else [mkTidy e (snd ch) (mean_of (map (column (fst ch)) rs))])
           (combine percent_columns horizon_labels).

(** The names of a table, as a table of the exact model. *)
Definition names_only (r : Row) : NamedRow := named_only (name r).


Definition row (n : string) (v : float) : Row :=
  mkRow (Some n) v v v v v v [].

(** Two entities met in turn, and their tidy rows. *)
Definition interleaved : Table :=
  [row "Tether" 1; row "Bitcoin" 5; row "Tether" 3].

(** The same rows, those of each entity side by side. *)
Definition grouped_rows : Table :=
  [row "Tether" 1; row "Tether" 3; row "Bitcoin" 5].


End Binary64.

(* ===================================================================== *)
(** * Traces                                                              *)
(* ===================================================================== *)

Lemma fetch_attempts_app (a b : list event) :
  fetch_attempts (a ++ b) = fetch_attempts a + fetch_attempts b.
Proof.
  induction a as [|[| |] a IH]; cbn; rewrite ?IH; reflexivity.
Qed.

Lemma sleeps_app (a b : list event) : sleeps (a ++ b) = sleeps a + sleeps b.
Proof.
  induction a as [|[| |] a IH]; cbn; rewrite ?IH; reflexivity.
Qed.

Lemma sleeps_of_app (s : nat) (a b : list event) :
  sleeps_of s (a ++ b) = sleeps_of s a + sleeps_of s b.
Proof.
  induction a as [|[| |] a IH]; cbn; rewrite ?IH; auto.
  destruct (Nat.eqb seconds s); cbn; reflexivity.
Qed.

(* ===================================================================== *)
(** * The store                                                           *)
(* ===================================================================== *)

Lemma normalize_all_records (records : list (list (string * json))) :
  normalize_all (map JObj records) = Ok (map normalise_json_ordered records).
Proof.
  induction records as [|r rs IH]; cbn; [reflexivity|].
  rewrite IH. reflexivity.
Qed.

Lemma json_normalize_batch (records : list (list (string * json))) :
  json_normalize (batch records) = Ok (Frame.of_dicts (map normalise_json_ordered records)).
Proof.
  destruct records as [|r rs]; [reflexivity|].
  unfold batch, json_normalize.
  change (map JObj (r :: rs)) with (JObj r :: map JObj rs).
  change (JObj r :: map JObj rs) with (map JObj (r :: rs)).
  rewrite normalize_all_records. reflexivity.
Qed.

Lemma record_batch_inv (data : json) :
  record_batch data = true -> exists records, data = batch records.
Proof.
  destruct data as [| | | |items|]; cbn; try discriminate.
  induction items as [|x xs IH]; cbn; intros H.
  - exists []. reflexivity.
  - apply andb_true_iff in H as [Hx Hxs].
    destruct x; try discriminate.
    destruct (IH Hxs) as [rs Hrs]. injection Hrs as ->.
    exists (members :: rs). reflexivity.
Qed.

(** What [save_data] does with a batch of records. *)
Lemma save_data_batch (records : list (list (string * json))) (w : World) :
  save_data (batch records) true w =
  (Ok tt,
   mkWorld (remote w) (requests_sent w) (now w)
           (Some (match output_file w with
                  | None => header_line (stamped records (now w))
                            :: rows (stamped records (now w))
                  | Some lines => lines ++ rows (stamped records (now w))
                  end))
           (stamped records (now w)) (trace w)).
Proof.
  unfold save_data, bind, lift. rewrite json_normalize_batch.
  destruct w as [rm sent t file df tr]; cbn.
  destruct file; reflexivity.
Qed.

(* ===================================================================== *)
(** * The fetcher                                                         *)
(* ===================================================================== *)

Lemma fetch_data_transport (w : World) (e : exn) :
  remote w (requests_sent w) = Fails e ->
  transport_failure e = true ->
  fetch_data w = (Ok JNull, logged (Print (ErrorFetching e)) (after_get w)).
Proof.
  intros Hx He.
  unfold fetch_data, try_except, bind, session_get. rewrite Hx.
  unfold transport_failure in He. rewrite He. reflexivity.
Qed.

Lemma fetch_data_success (w : World) (members : list (string * json)) (data : json) :
  remote w (requests_sent w) = Responds (Parsed (JObj members)) ->
  Dict.get "data" members = Some data ->
  fetch_data w = (Ok data, after_get w).
Proof.
  intros Hx Hd.
  unfold fetch_data, try_except, bind, session_get. rewrite Hx.
  cbn. rewrite Hd. reflexivity.
Qed.

Lemma payload_error_uncaught (text : body) :
  transport_failure (payload_error text) = false.
Proof. destruct text as [|[]]; reflexivity. Qed.

Lemma fetch_data_malformed (w : World) (text : body) :
  remote w (requests_sent w) = Responds text ->
  malformed text = true ->
  fetch_data w = (Raise (payload_error text), after_get w).
Proof.
  intros Hx Hm.
  unfold fetch_data, try_except, bind, session_get. rewrite Hx.
  destruct text as [|doc]; [reflexivity|].
  destruct doc as [| | | | |members]; try reflexivity.
  cbn in Hm |- *. destruct (Dict.get "data" members); [discriminate|reflexivity].
Qed.

(* ===================================================================== *)
(** * The poll loop                                                       *)
(* ===================================================================== *)

(** One iteration whose fetch returns nothing to store. *)
Lemma pull_skip (interval runs i : nat) (w w1 : World) (data : json) :
  fetch_data (logged (Print (RunPulling (i + 1) runs (now w))) w) = (Ok data, w1) ->
  truthy data = false ->
  pull interval runs i w =
  (Ok tt,
   mkWorld (remote w1) (requests_sent w1) (now w1 + Z.of_nat interval)%Z
           (output_file w1) (dataframe w1)
           (trace w1 ++ [Print (RunCompleted (i + 1) interval); Sleep interval])).
Proof.
  intros Hf Ht.
  unfold pull, bind, clock, print, emit. fold (logged (Print (RunPulling (i + 1) runs (now w))) w).
  rewrite Hf, Ht. unfold ret, sleep. cbn. rewrite <- app_assoc. reflexivity.
Qed.

(** One iteration whose fetch returns a batch of records. *)
Lemma pull_store (interval runs i : nat) (w w1 : World)
      (records : list (list (string * json))) :
  fetch_data (logged (Print (RunPulling (i + 1) runs (now w))) w) = (Ok (batch records), w1) ->
  truthy (batch records) = true ->
  pull interval runs i w =
  (Ok tt,
   mkWorld (remote w1) (requests_sent w1) (now w1 + Z.of_nat interval)%Z
           (Some (match output_file w1 with
                  | None => header_line (stamped records (now w1))
                            :: rows (stamped records (now w1))
                  | Some lines => lines ++ rows (stamped records (now w1))
                  end))
           (stamped records (now w1))
           (trace w1 ++ [Print (RunCompleted (i + 1) interval); Sleep interval])).
Proof.
  intros Hf Ht.
  unfold pull, bind, clock, print, emit. fold (logged (Print (RunPulling (i + 1) runs (now w))) w).
  rewrite Hf, Ht. rewrite save_data_batch. unfold sleep. cbn.
  rewrite <- app_assoc. reflexivity.
Qed.

Lemma one_cycle_intro (interval : nat) (w w' : World) (mid : list event) (m : message) :
  remote w' = remote w ->
  requests_sent w' = S (requests_sent w) ->
  trace w' = trace w ++ mid ++ [Print m; Sleep interval] ->
  fetch_attempts mid = 1 -> sleeps mid = 0 -> sleeps_of interval mid = 0 ->
  one_cycle interval w w'.
Proof.
  intros Hr Hn Ht Hg Hs Hso. unfold one_cycle.
  rewrite Hr, Hn, Ht.
  rewrite !fetch_attempts_app, !sleeps_app, !sleeps_of_app, Hg, Hs, Hso.
  cbn. rewrite Nat.eqb_refl.
  repeat split; try lia.
  change [Print m; Sleep interval] with ([Print m] ++ [Sleep interval]).
  rewrite !app_assoc. apply last_last.
Qed.

(** An iteration whose fetch returns (data or the failure signal) runs to
    its sleep. *)
Lemma pull_returns (interval runs i : nat) (w : World) :
  fetch_returns (remote w (requests_sent w)) = true ->
  exists w', pull interval runs i w = (Ok tt, w') /\ one_cycle interval w w'.
Proof.
  intros H.
  set (w0 := logged (Print (RunPulling (i + 1) runs (now w))) w).
  destruct (remote w (requests_sent w)) as [e|text] eqn:Hx; cbn [fetch_returns] in H.
  - (* transport failure *)
    assert (Hf : fetch_data w0 = (Ok JNull, logged (Print (ErrorFetching e)) (after_get w0)))
      by (apply fetch_data_transport; [exact Hx | exact H]).
    eexists. split; [apply (pull_skip _ _ _ _ _ _ Hf); reflexivity|].
    apply (one_cycle_intro _ _ _
             [Print (RunPulling (i + 1) runs (now w)); Get; Print (ErrorFetching e)]
             (RunCompleted (i + 1) interval));
      try reflexivity.
    cbn. rewrite <- !app_assoc. reflexivity.
  - destruct text as [|doc]; [discriminate|].
    destruct doc as [| | | | |members]; try discriminate.
    destruct (Dict.get "data" members) as [data|] eqn:Hd; [|discriminate].
    assert (Hf : fetch_data w0 = (Ok data, after_get w0))
      by (apply (fetch_data_success w0 members); [exact Hx | exact Hd]).
    destruct (truthy data) eqn:Ht.
    + (* a batch of records is stored *)
      rewrite orb_false_r in H. destruct (record_batch_inv _ H) as [records ->].
      eexists. split; [apply (pull_store _ _ _ _ _ _ Hf Ht)|].
      apply (one_cycle_intro _ _ _
               [Print (RunPulling (i + 1) runs (now w)); Get]
               (RunCompleted (i + 1) interval));
        try reflexivity.
      cbn. rewrite <- !app_assoc. reflexivity.
    + (* nothing to store *)
      eexists. split; [apply (pull_skip _ _ _ _ _ _ Hf Ht)|].
      apply (one_cycle_intro _ _ _
               [Print (RunPulling (i + 1) runs (now w)); Get]
               (RunCompleted (i + 1) interval));
        try reflexivity.
      cbn. rewrite <- !app_assoc. reflexivity.
Qed.

Lemma for_range_step (body : nat -> M unit) (i n : nat) (w w1 : World) :
  body i w = (Ok tt, w1) ->
  for_range_from i (S n) body w = for_range_from (S i) n body w1.
Proof. intros H. cbn. unfold bind. rewrite H. reflexivity. Qed.

(** The loop over exchanges that all return. *)
Lemma for_range_returns (interval runs : nat) :
  forall (n i : nat) (w : World),
    (forall k, k < n -> fetch_returns (remote w (requests_sent w + k)) = true) ->
    exists w',
      for_range_from i n (pull interval runs) w = (Ok tt, w') /\
      remote w' = remote w /\
      requests_sent w' = requests_sent w + n /\
      fetch_attempts (trace w') = fetch_attempts (trace w) + n /\
      sleeps (trace w') = sleeps (trace w) + n /\
      sleeps_of interval (trace w') = sleeps_of interval (trace w) + n /\
      (0 < n -> last (trace w') Get = Sleep interval).
Proof.
  induction n as [|n IH]; intros i w H.
  - exists w. cbn. repeat split; try lia.
  - destruct (pull_returns interval runs i w) as (w1 & Hp & Hr & Hs & Hg & Hsl & Hso & Hl).
    { specialize (H 0). rewrite Nat.add_0_r in H. apply H. lia. }
    destruct (IH (S i) w1) as (w' & Hloop & Hr' & Hs' & Hg' & Hsl' & Hso' & Hl').
    { intros k Hk. rewrite Hr, Hs.
      replace (S (requests_sent w) + k) with (requests_sent w + S k) by lia.
      apply H. lia. }
    exists w'. rewrite (for_range_step _ _ _ _ _ Hp).
    split; [exact Hloop|].
    rewrite Hr', Hs', Hg', Hsl', Hso', Hr, Hs, Hg, Hsl, Hso.
    repeat split; try lia.
    intros _. destruct n as [|n'].
    + cbn in Hloop. injection Hloop as <-. exact Hl.
    + apply Hl'. lia.
Qed.

(** An iteration that meets a malformed payload stops at the fetch. *)
Lemma pull_raises (interval runs i : nat) (w : World) (text : body) :
  remote w (requests_sent w) = Responds text ->
  malformed text = true ->
  pull interval runs i w =
  (Raise (payload_error text),
   after_get (logged (Print (RunPulling (i + 1) runs (now w))) w)).
Proof.
  intros Hx Hm.
  unfold pull, bind, clock, print, emit.
  fold (logged (Print (RunPulling (i + 1) runs (now w))) w).
  rewrite (fetch_data_malformed _ text); [reflexivity| exact Hx | exact Hm].
Qed.

Lemma for_range_raises (interval runs : nat) (text : body) :
  forall (k n i : nat) (w : World),
    k < n ->
    (forall j, j < k -> fetch_returns (remote w (requests_sent w + j)) = true) ->
    remote w (requests_sent w + k) = Responds text ->
    malformed text = true ->
    exists w',
      for_range_from i n (pull interval runs) w = (Raise (payload_error text), w') /\
      requests_sent w' = requests_sent w + k + 1 /\
      fetch_attempts (trace w') = fetch_attempts (trace w) + k + 1 /\
      sleeps (trace w') = sleeps (trace w) + k /\
      output_file w' = output_file (snd (for_range_from i k (pull interval runs) w)).
Proof.
  induction k as [|k IH]; intros n i w Hkn Hj Hx Hm.
  - destruct n as [|n]; [lia|].
    rewrite Nat.add_0_r in Hx.
    eexists. cbn [for_range_from]. unfold bind at 1.
    rewrite (pull_raises _ _ _ _ text Hx Hm).
    split; [reflexivity|].
    cbn. rewrite !fetch_attempts_app. cbn. repeat split; try lia.
    rewrite !sleeps_app. cbn. lia.
  - destruct n as [|n]; [lia|].
    destruct (pull_returns interval runs i w) as (w1 & Hp & Hr & Hs & Hg & Hsl & Hso & Hl).
    { specialize (Hj 0). rewrite Nat.add_0_r in Hj. apply Hj. lia. }
    destruct (IH n (S i) w1) as (w' & Hloop & Hs' & Hg' & Hsl' & Hf').
    { lia. }
    { intros j Hjk. rewrite Hr, Hs.
      replace (S (requests_sent w) + j) with (requests_sent w + S j) by lia.
      apply Hj. lia. }
    { rewrite Hr, Hs.
      replace (S (requests_sent w) + k) with (requests_sent w + S k) by lia.
      exact Hx. }
    { exact Hm. }
    exists w'. rewrite !(for_range_step _ _ _ _ _ Hp).
    split; [exact Hloop|].
    rewrite Hs', Hg', Hsl', Hs, Hg, Hsl.
    repeat split; try lia. exact Hf'.
Qed.

(** C2: for every interval and run count, when each fetch of the run
    either succeeds or fails (returns data or the failure signal),
    [automate_data_pull interval runs] returns after exactly [runs] fetch
    attempts and exactly [runs] sleeps, each of [interval] seconds, the last
    of them after the final iteration; a fetch without data only skips the
    store step of its cycle. *)
Theorem poll_loop_fetches_and_sleeps (interval runs : nat) (w : World) :
  (forall k, k < runs -> fetch_returns (remote w (requests_sent w + k)) = true) ->
  exists w',
    automate_data_pull interval runs w = (Ok tt, w') /\
    requests_sent w' = requests_sent w + runs /\
    fetch_attempts (trace w') = fetch_attempts (trace w) + runs /\
    sleeps (trace w') = sleeps (trace w) + runs /\
    sleeps_of interval (trace w') = sleeps_of interval (trace w) + runs /\
    (0 < runs -> last (trace w') Get = Sleep interval).
Proof.
  intros H.
  destruct (for_range_returns interval runs runs 0 w H)
    as (w' & Hloop & _ & Hs & Hg & Hsl & Hso & Hl).
  exists w'. unfold automate_data_pull, for_range. auto 10.
Qed.

Lemma poll_loop_fetches_and_sleeps_witness :
  exists w',
    automate_data_pull 60 3 sample_start = (Ok tt, w') /\
    requests_sent w' = requests_sent sample_start + 3 /\
    fetch_attempts (trace w') = fetch_attempts (trace sample_start) + 3 /\
    sleeps (trace w') = sleeps (trace sample_start) + 3 /\
    sleeps_of 60 (trace w') = sleeps_of 60 (trace sample_start) + 3 /\
    (0 < 3 -> last (trace w') Get = Sleep 60).
Proof.
  apply (poll_loop_fetches_and_sleeps 60 3 sample_start).
  intros k Hk. destruct k as [|[|[|k]]]; [reflexivity | reflexivity | reflexivity | lia].
Defined.

(** C5: a transport failure of the exchange (connection error, timeout,
    too many redirects) is caught by [fetch_data], which prints it and
    returns [None]; the loop body reads that result as nothing to store,
    leaves the file alone and goes on to its sleep. *)
Theorem transport_failure_skips_cycle (w : World) (e : exn) (interval runs i : nat) :
  remote w (requests_sent w) = Fails e ->
  transport_failure e = true ->
  fetch_data w = (Ok JNull, logged (Print (ErrorFetching e)) (after_get w)) /\
  truthy JNull = false /\
  exists w',
    pull interval runs i w = (Ok tt, w') /\
    output_file w' = output_file w /\
    dataframe w' = dataframe w /\
    one_cycle interval w w'.
Proof.
  intros Hx He.
  split; [apply fetch_data_transport; assumption|].
  split; [reflexivity|].
  set (w0 := logged (Print (RunPulling (i + 1) runs (now w))) w).
  assert (Hf : fetch_data w0 = (Ok JNull, logged (Print (ErrorFetching e)) (after_get w0)))
    by (apply fetch_data_transport; [exact Hx | exact He]).
  eexists. split; [apply (pull_skip _ _ _ _ _ _ Hf); reflexivity|].
  split; [reflexivity|]. split; [reflexivity|].
  apply (one_cycle_intro _ _ _
           [Print (RunPulling (i + 1) runs (now w)); Get; Print (ErrorFetching e)]
           (RunCompleted (i + 1) interval));
    try reflexivity.
  cbn. rewrite <- !app_assoc. reflexivity.
Qed.

Lemma transport_failure_skips_cycle_witness :
  fetch_data (sample_world (Fails ConnectionError) None)
  = (Ok JNull, logged (Print (ErrorFetching ConnectionError))
                      (after_get (sample_world (Fails ConnectionError) None))) /\
  truthy JNull = false /\
  exists w',
    pull 60 3 0 (sample_world (Fails ConnectionError) None) = (Ok tt, w') /\
    output_file w' = output_file (sample_world (Fails ConnectionError) None) /\
    dataframe w' = dataframe (sample_world (Fails ConnectionError) None) /\
    one_cycle 60 (sample_world (Fails ConnectionError) None) w'.
Proof.
  apply (transport_failure_skips_cycle (sample_world (Fails ConnectionError) None)
                                       ConnectionError 60 3 0);
    reflexivity.
Defined.

(** C7: when the exchange completes but its body is not JSON, or has no
    top-level [data] member, the exception raised inside [fetch_data]
    ([JSONDecodeError], [KeyError], [TypeError]) is none of those named by
    its [except] clause: it leaves [fetch_data], and a run that meets such a
    payload at its iteration [k] ends there with that exception, after
    [k + 1] fetch attempts and [k] sleeps. *)
Theorem malformed_payload_ends_run (interval runs k : nat) (w : World) (text : body) :
  k < runs ->
  (forall j, j < k -> fetch_returns (remote w (requests_sent w + j)) = true) ->
  remote w (requests_sent w + k) = Responds text ->
  malformed text = true ->
  transport_failure (payload_error text) = false /\
  (forall v, remote v (requests_sent v) = Responds text ->
             fetch_data v = (Raise (payload_error text), after_get v)) /\
  exists w',
    automate_data_pull interval runs w = (Raise (payload_error text), w') /\
    fetch_attempts (trace w') = fetch_attempts (trace w) + k + 1 /\
    sleeps (trace w') = sleeps (trace w) + k.
Proof.
  intros Hk Hj Hx Hm.
  split; [apply payload_error_uncaught|].
  split; [intros v Hv; apply fetch_data_malformed; assumption|].
  destruct (for_range_raises interval runs text k runs 0 w Hk Hj Hx Hm)
    as (w' & Hloop & _ & Hg & Hs & _).
  exists w'. unfold automate_data_pull, for_range. auto.
Qed.

Lemma malformed_payload_ends_run_witness :
  transport_failure (payload_error Malformed) = false /\
  (forall v, remote v (requests_sent v) = Responds Malformed ->
             fetch_data v = (Raise (payload_error Malformed), after_get v)) /\
  exists w',
    automate_data_pull 60 5 sample_start = (Raise (payload_error Malformed), w') /\
    fetch_attempts (trace w') = fetch_attempts (trace sample_start) + 3 + 1 /\
    sleeps (trace w') = sleeps (trace sample_start) + 3.
Proof.
  apply (malformed_payload_ends_run 60 5 3 sample_start Malformed).
  - lia.
  - intros j Hj. destruct j as [|[|[|j]]]; [reflexivity | reflexivity | reflexivity | lia].
  - reflexivity.
  - reflexivity.
Defined.

(** Stored directly, an empty batch would create the file with its header
    line. *)
Example save_data_of_empty_batch :
  output_file (snd (save_data (JArr []) true sample_start)) = Some [[Text "timestamp"]].
Proof. reflexivity. Qed.

(** C10: when the fetch of an iteration succeeds with an empty collection,
    the guard [if data:] reads it as it reads the failure signal: the store
    step is skipped, so the file is as it was (absent if it was absent) and
    the iteration only prints and sleeps. *)
Theorem empty_batch_skips_store (interval runs i : nat) (w : World)
        (members : list (string * json)) :
  remote w (requests_sent w) = Responds (Parsed (JObj members)) ->
  Dict.get "data" members = Some (JArr []) ->
  truthy (JArr []) = truthy JNull /\
  exists w',
    pull interval runs i w = (Ok tt, w') /\
    output_file w' = output_file w /\
    dataframe w' = dataframe w /\
    trace w' = trace w ++ [Print (RunPulling (i + 1) runs (now w)); Get;
                           Print (RunCompleted (i + 1) interval); Sleep interval].
Proof.
  intros Hx Hd. split; [reflexivity|].
  set (w0 := logged (Print (RunPulling (i + 1) runs (now w))) w).
  assert (Hf : fetch_data w0 = (Ok (JArr []), after_get w0))
    by (apply (fetch_data_success w0 members); [exact Hx | exact Hd]).
  eexists. split; [apply (pull_skip _ _ _ _ _ _ Hf); reflexivity|].
  split; [reflexivity|]. split; [reflexivity|].
  cbn. rewrite <- !app_assoc. reflexivity.
Qed.

Lemma empty_batch_skips_store_witness :
  truthy (JArr []) = truthy JNull /\
  exists w',
    pull 60 3 0 (sample_world (Responds (Parsed (JObj [("data", JArr [])]))) None)
    = (Ok tt, w') /\
    output_file w' = None /\
    dataframe w' = empty_frame /\
    trace w' = [] ++ [Print (RunPulling (0 + 1) 3 1700000000%Z); Get;
                      Print (RunCompleted (0 + 1) 60); Sleep 60].
Proof.
  apply (empty_batch_skips_store 60 3 0
           (sample_world (Responds (Parsed (JObj [("data", JArr [])]))) None)
           [("data", JArr [])]);
    reflexivity.
Defined.

(* ===================================================================== *)
(** * Frames built by the store                                           *)
(* ===================================================================== *)

Lemma index_of_lt (c : string) (cols : list string) (i : nat) :
  Frame.index_of c cols = Some i -> i < List.length cols.
Proof.
  revert i. induction cols as [|c' cols IH]; cbn; intros i H; [discriminate|].
  destruct (String.eqb c c').
  - injection H as <-. lia.
  - destruct (Frame.index_of c cols) as [j|]; [|discriminate].
    injection H as <-. specialize (IH j eq_refl). lia.
Qed.

Lemma index_of_snoc (c : string) (cols : list string) :
  Frame.index_of c cols = None ->
  Frame.index_of c (cols ++ [c]) = Some (List.length cols).
Proof.
  induction cols as [|c' cols IH]; cbn; intros H.
  - rewrite String.eqb_refl. reflexivity.
  - destruct (String.eqb c c'); [discriminate|].
    destruct (Frame.index_of c cols); [discriminate|].
    rewrite IH; reflexivity.
Qed.

Lemma nth_error_replace_nth {A} (i : nat) (x : A) (l : list A) :
  i < List.length l -> nth_error (Frame.replace_nth i x l) i = Some x.
Proof.
  revert i. induction l as [|y l IH]; cbn; intros i H; [lia|].
  destruct i as [|i]; cbn; [reflexivity|]. apply IH. lia.
Qed.

Lemma length_replace_nth {A} (i : nat) (x : A) (l : list A) :
  List.length (Frame.replace_nth i x l) = List.length l.
Proof.
  revert i. induction l as [|y l IH]; intros [|i]; cbn; auto.
Qed.

Lemma of_dicts_rectangular (ds : list (Dict.t json)) :
  rectangular (Frame.of_dicts ds).
Proof.
  unfold rectangular, Frame.of_dicts. cbn.
  apply Forall_forall. intros r Hr.
  apply in_map_iff in Hr as (d & <- & _).
  apply length_map.
Qed.

Lemma length_rows_of_dicts (ds : list (Dict.t json)) :
  List.length (rows (Frame.of_dicts ds)) = List.length ds.
Proof. unfold Frame.of_dicts. cbn. apply length_map. Qed.

Lemma length_rows_setitem (df : DataFrame) (c : string) (v : cell) :
  List.length (rows (Frame.setitem df c v)) = List.length (rows df).
Proof.
  unfold Frame.setitem. destruct (Frame.index_of c (columns df)); cbn; apply length_map.
Qed.

(** After [df[c] = v] every row holds [v] in column [c]. *)
Lemma setitem_at (df : DataFrame) (c : string) (v : cell) :
  rectangular df ->
  forall row, In row (rows (Frame.setitem df c v)) ->
              Frame.at_ (Frame.setitem df c v) row c = Some v.
Proof.
  intros Hrect row Hin. unfold rectangular in Hrect.
  rewrite Forall_forall in Hrect.
  unfold Frame.at_, Frame.setitem in *.
  destruct (Frame.index_of c (columns df)) as [i|] eqn:Hi; cbn in *.
  - rewrite Hi. apply in_map_iff in Hin as (r0 & <- & Hr0).
    apply nth_error_replace_nth. rewrite (Hrect _ Hr0).
    eapply index_of_lt; eassumption.
  - rewrite (index_of_snoc _ _ Hi).
    apply in_map_iff in Hin as (r0 & <- & Hr0).
    rewrite <- (Hrect _ Hr0).
    rewrite nth_error_app2 by lia. rewrite Nat.sub_diag. reflexivity.
Qed.

Lemma length_rows_stamped (records : list (list (string * json))) (t : Z) :
  List.length (rows (stamped records t)) = List.length records.
Proof.
  unfold stamped. rewrite length_rows_setitem, length_rows_of_dicts. apply length_map.
Qed.

Lemma stamped_at (records : list (list (string * json))) (t : Z) (row : list cell) :
  In row (rows (stamped records t)) ->
  Frame.at_ (stamped records t) row "timestamp" = Some (Stamp t).
Proof. apply setitem_at, of_dicts_rectangular. Qed.

Lemma at_in (df : DataFrame) (row : list cell) (c : string) (v : cell) :
  Frame.at_ df row c = Some v -> In v row.
Proof.
  unfold Frame.at_. destruct (Frame.index_of c (columns df)); [|discriminate].
  apply nth_error_In.
Qed.





(** C4: every row that [save_data] writes for a batch holds, in the column
    [timestamp], the one reading of the wall clock taken by that call, also
    when the records of the payload bring a [timestamp] member of their
    own. *)
Theorem batch_shares_store_time (records : list (list (string * json))) (w : World) :
  exists w',
    save_data (batch records) true w = (Ok tt, w') /\
    (exists before, output_file w' = Some (before ++ rows (dataframe w'))) /\
    List.length (rows (dataframe w')) = List.length records /\
    forall row, In row (rows (dataframe w')) ->
                Frame.at_ (dataframe w') row "timestamp" = Some (Stamp (now w)).
Proof.
  eexists. split; [apply save_data_batch|]. cbn.
  split.
  - destruct (output_file w) as [lines|].
    + exists lines. reflexivity.
    + exists [header_line (stamped records (now w))]. reflexivity.
  - split; [apply length_rows_stamped|].
    intros row Hin. apply stamped_at, Hin.
Qed.

Lemma batch_shares_store_time_witness :
  exists w',
    save_data (batch [sample_record; sample_record]) true sample_start = (Ok tt, w') /\
    (exists before, output_file w' = Some (before ++ rows (dataframe w'))) /\
    List.length (rows (dataframe w')) = 2 /\
    forall row, In row (rows (dataframe w')) ->
                Frame.at_ (dataframe w') row "timestamp" = Some (Stamp 1700000000%Z).
Proof.
  apply (batch_shares_store_time [sample_record; sample_record] sample_start).
Defined.

Lemma setitem_rectangular (df : DataFrame) (c : string) (v : cell) :
  rectangular df -> rectangular (Frame.setitem df c v).
Proof.
  unfold rectangular, Frame.setitem. intros H.
  destruct (Frame.index_of c (columns df)) as [i|]; cbn;
    apply Forall_forall; intros r Hr;
    apply in_map_iff in Hr as (r0 & <- & Hr0);
    rewrite Forall_forall in H; specialize (H _ Hr0).
  - rewrite length_replace_nth. exact H.
  - rewrite !length_app, H. reflexivity.
Qed.

Lemma labels_of_header_line (df : DataFrame) :
  map cell_label (header_line df) = columns df.
Proof.
  unfold header_line. rewrite map_map. cbn. apply map_id.
Qed.

(* ===================================================================== *)
(** * Grouping                                                            *)
(* ===================================================================== *)

Lemma in_entities (t : Table) (n : string) :
  In n (entities t) <-> exists r, In r t /\ name r = Some n.
Proof.
  induction t as [|a t IH]; cbn.
  - split; [intros [] | intros (r & [] & _)].
  - destruct (name a) as [m|] eqn:Ha.
    + cbn. rewrite filter_In, IH. split.
      * intros [<- | ((r & Hr & Hn) & _)].
        -- exists a. auto.
        -- exists r. auto.
      * intros (r & [<- | Hr] & Hn).
        -- left. congruence.
        -- destruct (String.eqb n m) eqn:E.
           ++ left. symmetry. apply String.eqb_eq, E.
           ++ right. split; [exists r; auto | reflexivity].
    + rewrite IH. split.
      * intros (r & Hr & Hn). exists r. auto.
      * intros (r & [<- | Hr] & Hn); [congruence | exists r; auto].
Qed.

Lemma NoDup_entities (t : Table) : NoDup (entities t).
Proof.
  induction t as [|a t IH]; cbn; [constructor|].
  destruct (name a) as [m|]; [|exact IH].
  constructor.
  - rewrite filter_In, String.eqb_refl. intros [_ H]. discriminate.
  - apply NoDup_filter, IH.
Qed.

Lemma existsb_eqb_In (n : string) (l : list string) :
  existsb (String.eqb n) l = true <-> In n l.
Proof.
  rewrite existsb_exists. split.
  - intros (x & Hx & E). apply String.eqb_eq in E. subst. exact Hx.
  - intros H. exists n. split; [exact H | apply String.eqb_refl].
Qed.

(** A further row adds its name after the names seen so far, unless it was
    seen. *)
Lemma entities_snoc (t : Table) (r : Row) :
  entities (t ++ [r]) =
  match name r with
  | Some n => if existsb (String.eqb n) (entities t) then entities t
              else entities t ++ [n]
  | None => entities t
  end.
Proof.
  induction t as [|a t IH]; cbn.
  - destruct (name r); reflexivity.
  - destruct (name a) as [m|] eqn:Ha; [|exact IH].
    rewrite IH. destruct (name r) as [n|]; [|reflexivity].
    cbn. destruct (existsb (String.eqb n) (entities t)) eqn:Hin.
    + destruct (String.eqb n m) eqn:E; cbn; [reflexivity|].
      assert (H : existsb (String.eqb n)
                    (filter (fun m0 => negb (String.eqb m0 m)) (entities t)) = true).
      { apply existsb_eqb_In, filter_In. split.
        - apply existsb_eqb_In, Hin.
        - rewrite E. reflexivity. }
      rewrite H. reflexivity.
    + rewrite filter_app. cbn.
      destruct (String.eqb n m) eqn:E; cbn.
      * rewrite app_nil_r. reflexivity.
      * assert (H : existsb (String.eqb n)
                      (filter (fun m0 => negb (String.eqb m0 m)) (entities t)) = false).
        { destruct (existsb _ (filter _ _)) eqn:H'; [|reflexivity].
          apply existsb_eqb_In, filter_In in H' as [H' _].
          apply existsb_eqb_In in H'. congruence. }
        rewrite H. reflexivity.
Qed.

Lemma add_to_group_known (key : string) (r : Row) (F : string -> list Row)
      (E : list string) :
  In key E -> NoDup E ->
  add_to_group key r (map (fun e => (e, F e)) E) =
  map (fun e => (e, if String.eqb key e then F e ++ [r] else F e)) E.
Proof.
  induction E as [|a E IH]; intros Hin Hnd; [destruct Hin|].
  apply NoDup_cons_iff in Hnd as [Ha Hnd]. cbn.
  destruct (String.eqb key a) eqn:Eq.
  - apply String.eqb_eq in Eq. subst a. f_equal.
    apply map_ext_in. intros e He.
    destruct (String.eqb key e) eqn:Eq'; [|reflexivity].
    apply String.eqb_eq in Eq'. subst e. contradiction.
  - f_equal. apply IH; [|exact Hnd].
    destruct Hin as [->|Hin]; [|exact Hin].
    rewrite String.eqb_refl in Eq. discriminate.
Qed.

Lemma add_to_group_new (key : string) (r : Row) (F : string -> list Row)
      (E : list string) :
  ~ In key E ->
  add_to_group key r (map (fun e => (e, F e)) E) =
  map (fun e => (e, F e)) E ++ [(key, [r])].
Proof.
  induction E as [|a E IH]; intros Hin; cbn; [reflexivity|].
  destruct (String.eqb key a) eqn:Eq.
  - apply String.eqb_eq in Eq. subst a. exfalso. apply Hin. left. reflexivity.
  - f_equal. apply IH. intros H. apply Hin. right. exact H.
Qed.

Lemma rows_of_snoc (e : string) (t : Table) (r : Row) :
  rows_of e (t ++ [r]) = rows_of e t ++ (if name_is e r then [r] else []).
Proof. unfold rows_of. rewrite filter_app. reflexivity. Qed.

Lemma rows_of_unseen (e : string) (t : Table) :
  ~ In e (entities t) -> rows_of e t = [].
Proof.
  intros H. unfold rows_of.
  induction t as [|a t IH]; cbn; [reflexivity|].
  destruct (name_is e a) eqn:Ha.
  - exfalso. apply H. apply in_entities. exists a. split; [left; reflexivity|].
    unfold name_is in Ha. destruct (name a) as [n|]; [|discriminate].
    apply String.eqb_eq in Ha. congruence.
  - apply IH. intros Hin. apply H. apply in_entities.
    apply in_entities in Hin as (r & Hr & Hn). exists r. split; [right|]; assumption.
Qed.

(** [groupby('name', sort=False)] yields the entities in first-seen order,
    each with its rows in table order. *)
Lemma groupby_name_entities (t : Table) :
  groupby_name t = map (fun e => (e, rows_of e t)) (entities t).
Proof.
  induction t as [|r t IH] using rev_ind; [reflexivity|].
  unfold groupby_name in *. rewrite fold_left_app, IH. cbn [fold_left].
  rewrite entities_snoc.
  destruct (name r) as [n|] eqn:Hn.
  - destruct (existsb (String.eqb n) (entities t)) eqn:Hin.
    + rewrite add_to_group_known;
        [| apply existsb_eqb_In, Hin | apply NoDup_entities].
      apply map_ext. intros e. rewrite rows_of_snoc.
      unfold name_is. rewrite Hn.
      destruct (String.eqb n e); [reflexivity | rewrite app_nil_r; reflexivity].
    + assert (Hnot : ~ In n (entities t)).
      { intros H. apply existsb_eqb_In in H. congruence. }
      rewrite add_to_group_new by exact Hnot.
      rewrite map_app. cbn [map]. apply f_equal2.
      * apply map_ext_in. intros e He. rewrite rows_of_snoc.
        unfold name_is. rewrite Hn.
        destruct (String.eqb n e) eqn:E; [|rewrite app_nil_r; reflexivity].
        apply String.eqb_eq in E. subst e. contradiction.
      * rewrite rows_of_snoc, (rows_of_unseen n t Hnot).
        unfold name_is. rewrite Hn, String.eqb_refl. reflexivity.
  - apply map_ext. intros e. rewrite rows_of_snoc.
    unfold name_is. rewrite Hn. rewrite app_nil_r. reflexivity.
Qed.

(* ===================================================================== *)
(** * Reshaping                                                           *)
(* ===================================================================== *)

Lemma map_flat_map {A B C} (f : B -> C) (g : A -> list B) (l : list A) :
  map f (flat_map g l) = flat_map (fun x => map f (g x)) l.
Proof.
  induction l as [|x l IH]; cbn; [reflexivity|].
  rewrite map_app, IH. reflexivity.
Qed.

Lemma flat_map_map {A B C} (f : A -> B) (g : B -> list C) (l : list A) :
  flat_map g (map f l) = flat_map (fun x => g (f x)) l.
Proof.
  induction l as [|x l IH]; cbn; [reflexivity|].
  rewrite IH. reflexivity.
Qed.

(** Stacking the six means of one group and relabelling them. *)
Lemma stack_one_group (e : string) (m : string -> option Q) :
  map (fun x => match x with
                | (n, level_1, v) =>
                    mkTidy n (replace percent_columns horizon_labels level_1) v
                end)
      (flat_map (fun cv => match snd cv with
                           | Some v => [(e, fst cv, v)]
                           | None => []
                           end)
                (map (fun c => (c, m c)) percent_columns))
  = flat_map (fun ch => match m (fst ch) with
                        | Some v => [mkTidy e (snd ch) v]
                        | None => []
                        end)
             (combine percent_columns horizon_labels).
Proof.
  cbn.
  destruct (m "quote.USD.percent_change_1h"), (m "quote.USD.percent_change_24h"),
           (m "quote.USD.percent_change_7d"), (m "quote.USD.percent_change_30d"),
           (m "quote.USD.percent_change_60d"), (m "quote.USD.percent_change_90d");
    reflexivity.
Qed.

(** [transform_data] lists the entities in first-seen order, each with
    the means of its own rows. *)
Lemma transform_data_by_entity (t : Table) :
  transform_data t = flat_map (fun e => tidy_rows e (rows_of e t)) (entities t).
Proof.
  unfold transform_data, stack, grouped_mean.
  rewrite groupby_name_entities, map_map, flat_map_map, map_flat_map.
  apply flat_map_ext. intros e. cbn [fst snd].
  apply (stack_one_group e (fun c => mean (map (column c) (rows_of e t)))).
Qed.

(* ===================================================================== *)
(** * Means                                                               *)
(* ===================================================================== *)






(* ===================================================================== *)
(** * The reshaper                                                        *)
(* ===================================================================== *)




(** Entities come out in the order in which the table first shows them. *)
Example transform_keeps_first_seen_order :
  map tidy_name
      (transform_data
         [ mkRow (Some "Tether") (Some 1%Q) None None None None None [];
           mkRow (Some "Bitcoin") (Some 3%Q) None None None None None [];
           mkRow (Some "Tether") (Some 2%Q) None None None None None [] ])
  = ["Tether"; "Bitcoin"].
Proof. reflexivity. Qed.

(* ===================================================================== *)
(** * The filter                                                          *)
(* ===================================================================== *)



Lemma filter_names (value : string) (dataframe : Table) (r : Row) :
  In r (filter (name_is value) dataframe) <-> In r dataframe /\ name r = Some value.
Proof.
  rewrite filter_In. unfold name_is. split; intros [Hin H]; (split; [exact Hin|]).
  - destruct (name r) as [n|]; [|discriminate].
    apply String.eqb_eq in H. congruence.
  - rewrite H. apply String.eqb_refl.
Qed.

(** C6 fails on the code: for the name made of [Bitcoin] and a final
    backslash, the expression given to [query] is [name == ] followed by a
    literal whose closing quote the backslash takes away; the expression
    is not Python and [filter_coin_data] raises, whatever the table holds,
    where the specification promises an empty result. *)
Theorem filter_coin_data_raises_on_backslash (dataframe : Table) :
  filter_coin_data dataframe bitcoin_backslash = Raise SyntaxError.
Proof. reflexivity. Qed.

(** The escapes of the literal also change which rows are kept: asked for
    the name with two backslashes, the filter returns the row whose name
    has one. *)
Example filter_coin_data_reads_escapes :
  filter_coin_data [named a_backslash_b; named a_2backslash_b] a_2backslash_b
  = Ok [named a_backslash_b].
Proof. reflexivity. Qed.

Example filter_coin_data_no_match :
  filter_coin_data [named "Bitcoin"; named "Ethereum"] "bitcoin" = Ok [].
Proof. reflexivity. Qed.

(* ===================================================================== *)
(** * More on the fetcher and the store                                   *)
(* ===================================================================== *)

(** What [save_data] does once [json_normalize] has accepted the data. *)
Lemma save_data_normalized (data : json) (df0 : DataFrame) (save_csv : bool) (w : World) :
  json_normalize data = Ok df0 ->
  save_data data save_csv w =
  (Ok tt,
   mkWorld (remote w) (requests_sent w) (now w)
           (if save_csv
            then Some (match output_file w with
                       | None =>
                           header_line (Frame.setitem df0 "timestamp" (Stamp (now w)))
                           :: rows (Frame.setitem df0 "timestamp" (Stamp (now w)))
                       | Some lines =>
                           lines ++ rows (Frame.setitem df0 "timestamp" (Stamp (now w)))
                       end)
            else output_file w)
           (Frame.setitem df0 "timestamp" (Stamp (now w))) (trace w)).
Proof.
  intros H. unfold save_data, bind, lift. rewrite H.
  destruct w as [rm sent t file df tr]; cbn.
  destruct save_csv; [|reflexivity].
  destruct file; reflexivity.
Qed.

Lemma save_data_refused (data : json) (e : exn) (save_csv : bool) (w : World) :
  json_normalize data = Raise e ->
  save_data data save_csv w = (Raise e, w).
Proof.
  intros H. unfold save_data, bind, lift. rewrite H. reflexivity.
Qed.

(** X1: whatever the endpoint does, one call of [fetch_data] sends exactly
    one request; it never sleeps, never retries, and leaves the clock, the
    file and [self.dataframe] as they were. *)
Theorem fetch_data_sends_one_request (w : World) :
  requests_sent (snd (fetch_data w)) = S (requests_sent w) /\
  fetch_attempts (trace (snd (fetch_data w))) = S (fetch_attempts (trace w)) /\
  sleeps (trace (snd (fetch_data w))) = sleeps (trace w) /\
  now (snd (fetch_data w)) = now w /\
  output_file (snd (fetch_data w)) = output_file w /\
  dataframe (snd (fetch_data w)) = dataframe w.
Proof.
  unfold fetch_data, try_except, bind, session_get.
  destruct (remote w (requests_sent w)) as [e|text].
  - destruct (existsb (isinstance e) [ConnectionError; Timeout; TooManyRedirects]);
      cbn; rewrite ?fetch_attempts_app, ?sleeps_app; cbn; repeat split; lia.
  - destruct text as [|doc]; cbn.
    + rewrite fetch_attempts_app, sleeps_app. cbn. repeat split; lia.
    + destruct doc as [| | | | |members]; cbn;
        try (rewrite fetch_attempts_app, sleeps_app; cbn; repeat split; lia).
      destruct (Dict.get "data" members); cbn;
        rewrite fetch_attempts_app, sleeps_app; cbn; repeat split; lia.
Qed.

(** X2: an exception of the request that is none of [ConnectionError],
    [Timeout], [TooManyRedirects] (a [ChunkedEncodingError], say) is not
    caught: it leaves [fetch_data], and a run that meets it at its first
    exchange ends with it before any sleep. *)
Theorem other_request_error_ends_run (w : World) (e : exn) (interval runs : nat) :
  remote w (requests_sent w) = Fails e ->
  transport_failure e = false ->
  0 < runs ->
  fetch_data w = (Raise e, after_get w) /\
  exists w',
    automate_data_pull interval runs w = (Raise e, w') /\
    sleeps (trace w') = sleeps (trace w) /\
    output_file w' = output_file w.
Proof.
  intros Hx He Hruns.
  assert (Hfetch : forall v, remote v (requests_sent v) = Fails e ->
                             fetch_data v = (Raise e, after_get v)).
  { intros v Hv. unfold fetch_data, try_except, bind, session_get. rewrite Hv.
    unfold transport_failure in He. rewrite He. reflexivity. }
  split; [apply Hfetch, Hx|].
  destruct runs as [|runs]; [lia|].
  eexists. unfold automate_data_pull, for_range. cbn [for_range_from].
  unfold bind at 1. unfold pull, bind, clock, print, emit.
  fold (logged (Print (RunPulling (0 + 1) (S runs) (now w))) w).
  rewrite (Hfetch (logged _ w)) by exact Hx.
  split; [reflexivity|]. cbn. rewrite !sleeps_app. cbn. split; [lia | reflexivity].
Qed.

Lemma other_request_error_ends_run_witness :
  fetch_data (sample_world (Fails ChunkedEncodingError) None)
  = (Raise ChunkedEncodingError, after_get (sample_world (Fails ChunkedEncodingError) None)) /\
  exists w',
    automate_data_pull 60 3 (sample_world (Fails ChunkedEncodingError) None)
    = (Raise ChunkedEncodingError, w') /\
    sleeps (trace w') = sleeps (trace (sample_world (Fails ChunkedEncodingError) None)) /\
    output_file w' = output_file (sample_world (Fails ChunkedEncodingError) None).
Proof.
  apply (other_request_error_ends_run (sample_world (Fails ChunkedEncodingError) None)
           ChunkedEncodingError 60 3);
    [reflexivity | reflexivity | lia].
Defined.

(** X3: [fetch_data] hands over the [data] member without looking at its
    shape; when it is a true value that is neither a list nor a dictionary
    (a non-empty string, a non-zero number, [true]) the guard lets it
    through, [json_normalize] refuses it with [NotImplementedError], and the
    iteration ends there: nothing is written and no sleep follows. *)
Theorem scalar_data_ends_iteration (w : World) (members : list (string * json))
        (data : json) (interval runs i : nat) :
  remote w (requests_sent w) = Responds (Parsed (JObj members)) ->
  Dict.get "data" members = Some data ->
  is_scalar data = true ->
  truthy data = true ->
  fetch_data w = (Ok data, after_get w) /\
  exists w',
    pull interval runs i w = (Raise NotImplementedError, w') /\
    output_file w' = output_file w /\
    dataframe w' = dataframe w /\
    sleeps (trace w') = sleeps (trace w).
Proof.
  intros Hx Hd Hs Ht.
  split; [apply (fetch_data_success w members); assumption|].
  eexists. unfold pull, bind, clock, print, emit.
  fold (logged (Print (RunPulling (i + 1) runs (now w))) w).
  rewrite (fetch_data_success (logged _ w) members data) by assumption.
  rewrite Ht.
  rewrite (save_data_refused data NotImplementedError)
    by (destruct data; try discriminate; reflexivity).
  split; [reflexivity|]. cbn. rewrite !sleeps_app. cbn.
  repeat split; lia.
Qed.

Lemma scalar_data_ends_iteration_witness :
  fetch_data (sample_world (Responds (Parsed (JObj [("data", JStr "maintenance")]))) None)
  = (Ok (JStr "maintenance"),
     after_get (sample_world (Responds (Parsed (JObj [("data", JStr "maintenance")]))) None)) /\
  exists w',
    pull 60 3 0 (sample_world (Responds (Parsed (JObj [("data", JStr "maintenance")]))) None)
    = (Raise NotImplementedError, w') /\
    output_file w' = None /\
    dataframe w' = empty_frame /\
    sleeps (trace w') = 0.
Proof.
  apply (scalar_data_ends_iteration
           (sample_world (Responds (Parsed (JObj [("data", JStr "maintenance")]))) None)
           [("data", JStr "maintenance")] (JStr "maintenance") 60 3 0);
    reflexivity.
Defined.

(** X4: given a value that is neither a list nor a dictionary, [save_data]
    raises [NotImplementedError] at its first statement: [self.dataframe]
    keeps the previous batch and the file is not touched. *)
Theorem save_data_refuses_scalars (data : json) (save_csv : bool) (w : World) :
  is_scalar data = true ->
  save_data data save_csv w = (Raise NotImplementedError, w).
Proof.
  intros H. apply save_data_refused.
  destruct data; try discriminate; reflexivity.
Qed.

Lemma save_data_refuses_scalars_witness :
  save_data (JStr "maintenance") true sample_start = (Raise NotImplementedError, sample_start).
Proof. apply (save_data_refuses_scalars (JStr "maintenance") true sample_start). reflexivity. Defined.

(** X5: [save_data] only ever adds to an existing file: whatever the data
    and whether it returns or raises, the lines that the file held are still
    there, in place, as its first lines. *)
Theorem save_data_keeps_earlier_lines (data : json) (save_csv : bool) (w : World)
        (lines : csv) :
  output_file w = Some lines ->
  exists added, output_file (snd (save_data data save_csv w)) = Some (lines ++ added).
Proof.
  intros Hfile.
  destruct (json_normalize data) as [df0|e] eqn:Hn.
  - rewrite (save_data_normalized _ _ save_csv w Hn). cbn. rewrite Hfile.
    destruct save_csv.
    + eexists. reflexivity.
    + exists []. rewrite app_nil_r. reflexivity.
  - rewrite (save_data_refused _ _ save_csv w Hn). cbn.
    exists []. rewrite app_nil_r. exact Hfile.
Qed.

Lemma save_data_keeps_earlier_lines_witness :
  exists added,
    output_file (snd (save_data (batch [sample_record]) true
                        (sample_world (Fails Timeout) (Some [[Text "name"]]))))
    = Some ([[Text "name"]] ++ added).
Proof.
  apply (save_data_keeps_earlier_lines (batch [sample_record]) true
           (sample_world (Fails Timeout) (Some [[Text "name"]])) [[Text "name"]]).
  reflexivity.
Defined.

(* ===================================================================== *)
(** * Shape of the stored file                                            *)
(* ===================================================================== *)

Lemma index_of_none (c : string) (cols : list string) :
  Frame.index_of c cols = None <-> ~ In c cols.
Proof.
  induction cols as [|c' cols IH]; cbn.
  - split; [intros _ [] | reflexivity].
  - destruct (String.eqb c c') eqn:E.
    + apply String.eqb_eq in E. subst c'. split; [discriminate | intros H; exfalso; auto].
    + apply String.eqb_neq in E. destruct (Frame.index_of c cols); cbn.
      * split; [discriminate|]. intros H. exfalso.
        assert (Hn : ~ In c cols) by tauto.
        apply IH in Hn. discriminate.
      * split; [|reflexivity]. intros _ [H|H]; [congruence|].
        apply (proj1 IH eq_refl H).
Qed.

Lemma index_of_some_in (c : string) (cols : list string) (i : nat) :
  Frame.index_of c cols = Some i -> In c cols.
Proof.
  intros H. destruct (in_dec string_dec c cols) as [Hin|Hn]; [exact Hin|].
  apply index_of_none in Hn. congruence.
Qed.

Lemma union_keys_NoDup (ks acc : list string) :
  NoDup acc -> NoDup (Frame.union_keys acc ks).
Proof.
  revert acc. induction ks as [|k ks IH]; intros acc H; cbn; [exact H|].
  apply IH. destruct (existsb (String.eqb k) acc) eqn:E; [exact H|].
  apply NoDup_app; [exact H | repeat constructor; intros [] |].
  intros a Ha [Hk|[]]. subst a.
  assert (existsb (String.eqb k) acc = true) by (apply existsb_eqb_In, Ha).
  congruence.
Qed.

Lemma of_dicts_columns_NoDup (ds : list (Dict.t json)) :
  NoDup (columns (Frame.of_dicts ds)).
Proof.
  unfold Frame.of_dicts. cbn.
  assert (H : forall acc, NoDup acc ->
            NoDup (fold_left (fun acc d => Frame.union_keys acc (Dict.keys d)) ds acc)).
  { induction ds as [|d ds IH]; intros acc Hacc; cbn; [exact Hacc|].
    apply IH, union_keys_NoDup, Hacc. }
  apply H. constructor.
Qed.

Lemma setitem_columns (df : DataFrame) (c : string) (v : cell) :
  NoDup (columns df) ->
  NoDup (columns (Frame.setitem df c v)) /\ In c (columns (Frame.setitem df c v)).
Proof.
  intros H. unfold Frame.setitem.
  destruct (Frame.index_of c (columns df)) as [i|] eqn:Hi; cbn.
  - split; [exact H | eapply index_of_some_in, Hi].
  - apply index_of_none in Hi. split.
    + apply NoDup_app; [exact H | repeat constructor; intros [] |].
      intros a Ha [Hc|[]]. subst a. contradiction.
    + apply in_or_app. right. left. reflexivity.
Qed.

(** The columns of a stamped batch do not depend on the time of the
    stamp. *)
Lemma stamped_columns_time (records : list (list (string * json))) (t t' : Z) :
  columns (stamped records t) = columns (stamped records t').
Proof.
  unfold stamped, Frame.setitem.
  destruct (Frame.index_of "timestamp" (columns (Frame.of_dicts _))); reflexivity.
Qed.

Lemma stamped_rectangular (records : list (list (string * json))) (t : Z) :
  rectangular (stamped records t).
Proof. apply setitem_rectangular, of_dicts_rectangular. Qed.

(** X6: the file that [save_data] creates is a table: its header has the
    column [timestamp], no label twice, and every line under it has exactly
    one field per label. *)
Theorem created_file_is_a_table (records : list (list (string * json))) (w : World) :
  output_file w = None ->
  exists header data,
    output_file (snd (save_data (batch records) true w)) = Some (header :: data) /\
    NoDup (map cell_label header) /\
    In "timestamp" (map cell_label header) /\
    Forall (fun l => List.length l = List.length header) data.
Proof.
  intros Hfile. rewrite save_data_batch. cbn. rewrite Hfile.
  eexists. eexists. split; [reflexivity|].
  rewrite labels_of_header_line.
  destruct (setitem_columns (Frame.of_dicts (map normalise_json_ordered records))
              "timestamp" (Stamp (now w)) (of_dicts_columns_NoDup _)) as [Hnd Hin].
  split; [exact Hnd|]. split; [exact Hin|].
  unfold header_line. rewrite length_map. apply stamped_rectangular.
Qed.

Lemma created_file_is_a_table_witness :
  exists header data,
    output_file (snd (save_data (batch [sample_record; sample_record]) true sample_start))
    = Some (header :: data) /\
    NoDup (map cell_label header) /\
    In "timestamp" (map cell_label header) /\
    Forall (fun l => List.length l = List.length header) data.
Proof.
  apply (created_file_is_a_table [sample_record; sample_record] sample_start).
  reflexivity.
Defined.

(** The file after two batches stored from an absent file. *)
Lemma two_batches_file (first second : list (list (string * json))) (w : World) :
  output_file w = None ->
  exists w1 w2,
    save_data (batch first) true w = (Ok tt, w1) /\
    save_data (batch second) true w1 = (Ok tt, w2) /\
    output_file w2 = Some (header_line (stamped first (now w))
                           :: rows (stamped first (now w)) ++ rows (stamped second (now w))) /\
    trace w2 = trace w /\ requests_sent w2 = requests_sent w /\ now w2 = now w.
Proof.
  intros Hfile. eexists. eexists.
  split; [apply save_data_batch|]. split; [apply save_data_batch|].
  cbn. rewrite Hfile. repeat split.
Qed.

Lemma load_data_existing (w : World) (header : list cell) (data : csv) :
  output_file w = Some (header :: data) ->
  load_data w =
  (match parse_csv (header :: data) with
   | Ok df => Ok (Some df)
   | Raise e => Raise e
   end, w).
Proof.
  intros Hfile. unfold load_data, bind, isfile, read_csv, ret. rewrite !Hfile.
  destruct (parse_csv (header :: data)); reflexivity.
Qed.


Lemma two_fields_not_blank (c c' : cell) (l : list cell) : blank (c :: c' :: l) = false.
Proof. destruct c as [| |[|a s]| | | |]; reflexivity. Qed.

Lemma stamped_row_not_blank (records : list (list (string * json))) (t : Z) :
  Forall (fun l => blank l = false) (rows (stamped records t)).
Proof.
  apply Forall_forall. intros row Hin.
  apply stamped_at, at_in in Hin.
  destruct row as [|c [|c' row]]; [destruct Hin | | apply two_fields_not_blank].
  destruct Hin as [Hc|[]]. subst c. reflexivity.
Qed.

Lemma stamped_header_not_blank (records : list (list (string * json))) (t : Z) :
  blank (header_line (stamped records t)) = false.
Proof.
  destruct (setitem_columns (Frame.of_dicts (map normalise_json_ordered records))
              "timestamp" (Stamp t) (of_dicts_columns_NoDup _)) as [_ Hin].
  unfold header_line. fold (stamped records t) in Hin.
  destruct (columns (stamped records t)) as [|c [|c' cols]];
    [destruct Hin | | apply two_fields_not_blank].
  destruct Hin as [Hc|[]]. subst c. reflexivity.
Qed.



Lemma filter_not_blank (lines : csv) :
  Forall (fun l => blank l = false) lines ->
  filter (fun l => negb (blank l)) lines = lines.
Proof.
  induction 1 as [|l lines Hl _ IH]; cbn; [reflexivity|].
  rewrite Hl, IH. reflexivity.
Qed.

(** What the parser makes of a header line followed by lines none of which
    is blank, when the first data line has no more fields than the
    header. *)
Lemma parse_csv_under_header (header : list cell) (data : csv) :
  blank header = false ->
  Forall (fun l => blank l = false) data ->
  (forall first rest, data = first :: rest -> List.length first <= List.length header) ->
  parse_csv (header :: data) =
  if forallb (fun l => Nat.leb (List.length l) (List.length header)) data
  then if labels_described header
       then Ok (mkFrame (map cell_label header)
                        (map (fun l => pad (List.length header) (map reread l)) data))
       else Raise OutsideModel
  else Raise ParserError.
Proof.
  intros Hh Hd Hfirst. unfold parse_csv.
  rewrite (filter_not_blank (header :: data)) by (constructor; assumption).
  assert (Hw : match data with
               | [] => List.length header
               | first :: _ => Nat.max (List.length header) (List.length first)
               end = List.length header).
  { destruct data as [|first rest]; [reflexivity|].
    specialize (Hfirst first rest eq_refl). lia. }
  rewrite Hw, Nat.sub_diag. reflexivity.
Qed.




(** X8: no schema is checked when a batch is appended.  When the second
    batch has more columns than the first, whose header the file keeps, its
    rows are longer than the header and of the first data line (the first
    batch is not empty), and the file can no longer be loaded: [load_data]
    raises [ParserError]. *)
Theorem wider_batch_breaks_load (first second : list (list (string * json))) (w : World) :
  output_file w = None ->
  first <> [] -> second <> [] ->
  List.length (columns (stamped first (now w)))
    < List.length (columns (stamped second (now w))) ->
  exists w1 w2,
    save_data (batch first) true w = (Ok tt, w1) /\
    save_data (batch second) true w1 = (Ok tt, w2) /\
    load_data w2 = (Raise ParserError, w2).
Proof.
  intros Hfile Hfirst Hsecond Hwide.
  destruct (two_batches_file first second w Hfile) as (w1 & w2 & H1 & H2 & Hf & _).
  exists w1, w2. split; [exact H1|]. split; [exact H2|].
  pose proof (stamped_rectangular first (now w)) as R1.
  unfold rectangular in R1. rewrite Forall_forall in R1.
  rewrite (load_data_existing _ _ _ Hf).
  rewrite parse_csv_under_header.
  - assert (Hall : forallb (fun l => Nat.leb (List.length l)
                                       (List.length (header_line (stamped first (now w)))))
                     (rows (stamped first (now w)) ++ rows (stamped second (now w))) = false).
    { destruct (forallb _ _) eqn:E; [|reflexivity]. exfalso.
      rewrite forallb_app in E. apply andb_true_iff in E as [_ E].
      rewrite forallb_forall in E.
      pose proof (length_rows_stamped second (now w)) as Hlen.
      pose proof (stamped_rectangular second (now w)) as Hrect.
      unfold rectangular in Hrect. rewrite Forall_forall in Hrect.
      destruct (rows (stamped second (now w))) as [|r rs] eqn:Hr.
      - destruct second; [contradiction | discriminate].
      - specialize (E r (or_introl eq_refl)). specialize (Hrect r (or_introl eq_refl)).
        apply Nat.leb_le in E. unfold header_line in E. rewrite length_map in E. lia. }
    rewrite Hall. reflexivity.
  - apply stamped_header_not_blank.
  - apply Forall_app. split; apply stamped_row_not_blank.
  - intros l rest E. unfold header_line. rewrite length_map.
    pose proof (length_rows_stamped first (now w)) as Hlen.
    destruct (rows (stamped first (now w))) as [|r rs] eqn:Hr.
    + destruct first; [contradiction | discriminate].
    + cbn in E. injection E as <- _. rewrite (R1 r); [lia | left; reflexivity].
Qed.

Lemma wider_batch_breaks_load_witness :
  exists w1 w2,
    save_data (batch [narrow_record]) true sample_start = (Ok tt, w1) /\
    save_data (batch [wide_record]) true w1 = (Ok tt, w2) /\
    load_data w2 = (Raise ParserError, w2).
Proof.
  apply (wider_batch_breaks_load [narrow_record] [wide_record] sample_start);
    [reflexivity | discriminate | discriminate | cbn; lia].
Defined.




(** X10: [load_data] only reads: in every case the file, the clock, the
    number of requests and [self.dataframe] are as before, and nothing is
    fetched or slept. *)
Theorem load_data_only_reads (w : World) :
  output_file (snd (load_data w)) = output_file w /\
  dataframe (snd (load_data w)) = dataframe w /\
  requests_sent (snd (load_data w)) = requests_sent w /\
  now (snd (load_data w)) = now w /\
  fetch_attempts (trace (snd (load_data w))) = fetch_attempts (trace w) /\
  sleeps (trace (snd (load_data w))) = sleeps (trace w).
Proof.
  unfold load_data, bind, isfile, read_csv, ret.
  destruct (output_file w) as [lines|] eqn:Hfile.
  - rewrite Hfile. destruct (parse_csv lines); cbn; auto 10.
  - cbn. rewrite fetch_attempts_app, sleeps_app. cbn. repeat split; auto; lia.
Qed.

(* ===================================================================== *)
(** * What a run leaves in the store                                      *)
(* ===================================================================== *)

(** The effect of one returning iteration on the clock and on the file. *)
Lemma pull_effect (interval runs i : nat) (w : World) :
  fetch_returns (remote w (requests_sent w)) = true ->
  exists w',
    pull interval runs i w = (Ok tt, w') /\
    remote w' = remote w /\
    requests_sent w' = S (requests_sent w) /\
    now w' = (now w + Z.of_nat interval)%Z /\
    (stored_rows (remote w (requests_sent w)) = 0 ->
     output_file w' = output_file w /\ dataframe w' = dataframe w) /\
    (0 < stored_rows (remote w (requests_sent w)) ->
     exists added,
       List.length added = stored_rows (remote w (requests_sent w)) /\
       exists header,
         output_file w' = Some (match output_file w with
                                | None => header :: added
                                | Some lines => lines ++ added
                                end)).
Proof.
  intros H.
  set (w0 := logged (Print (RunPulling (i + 1) runs (now w))) w).
  destruct (remote w (requests_sent w)) as [e|text] eqn:Hx; cbn [fetch_returns] in H.
  - assert (Hf : fetch_data w0 = (Ok JNull, logged (Print (ErrorFetching e)) (after_get w0)))
      by (apply fetch_data_transport; [exact Hx | exact H]).
    eexists. split; [apply (pull_skip _ _ _ _ _ _ Hf); reflexivity|].
    cbn. repeat split; lia.
  - destruct text as [|doc]; [discriminate|].
    destruct doc as [| | | | |members]; try discriminate.
    destruct (Dict.get "data" members) as [data|] eqn:Hd; [|discriminate].
    assert (Hf : fetch_data w0 = (Ok data, after_get w0))
      by (apply (fetch_data_success w0 members); [exact Hx | exact Hd]).
    cbn [stored_rows]. rewrite Hd.
    destruct (truthy data) eqn:Ht.
    + rewrite orb_false_r in H. destruct (record_batch_inv _ H) as [records ->].
      eexists. split; [apply (pull_store _ _ _ _ _ _ Hf Ht)|].
      cbn [remote requests_sent now output_file dataframe after_get logged w0].
      split; [reflexivity|]. split; [reflexivity|]. split; [reflexivity|].
      unfold batch in *. cbn [record_batch] in H. rewrite H.
      rewrite length_map.
      split.
      * intros H0. destruct records; [discriminate Ht | discriminate H0].
      * intros _. exists (rows (stamped records (now w))).
        split; [apply length_rows_stamped|].
        exists (header_line (stamped records (now w))). reflexivity.
    + eexists. split; [apply (pull_skip _ _ _ _ _ _ Hf Ht)|].
      cbn [remote requests_sent now output_file dataframe after_get logged w0].
      split; [reflexivity|]. split; [reflexivity|]. split; [reflexivity|].
      assert (Hs : match data with
                   | JArr items => if forallb is_dict items then List.length items else 0
                   | _ => 0
                   end = 0).
      { destruct data as [| | | |items|]; try reflexivity.
        destruct items; [reflexivity | discriminate Ht]. }
      rewrite Hs. split; [auto | intros H0; lia].
Qed.

Lemma header_written_step (w w1 : World) (s rest : nat) :
  (s = 0 -> output_file w1 = output_file w) ->
  (0 < s -> exists l, output_file w1 = Some l) ->
  header_written w (s + rest) = header_written w s + header_written w1 rest.
Proof.
  intros H0 H1. unfold header_written.
  destruct s as [|s].
  - rewrite (H0 eq_refl). cbn. destruct (output_file w); reflexivity.
  - destruct H1 as [l Hl]; [lia|]. rewrite Hl. cbn.
    destruct (output_file w); reflexivity.
Qed.

Lemma file_lines_step (w w1 : World) (s : nat) :
  (s = 0 -> output_file w1 = output_file w) ->
  (0 < s ->
   exists added, List.length added = s /\
     exists header, output_file w1 = Some (match output_file w with
                                           | None => header :: added
                                           | Some lines => lines ++ added
                                           end)) ->
  file_lines w1 = file_lines w + s + header_written w s.
Proof.
  intros H0 H1. unfold file_lines, header_written.
  destruct s as [|s].
  - rewrite (H0 eq_refl). destruct (output_file w); cbn; lia.
  - destruct H1 as (added & Hlen & header & Hf); [lia|]. rewrite Hf.
    destruct (output_file w); cbn; rewrite ?length_app; lia.
Qed.

(** The run over exchanges that all return: clock, file and requests. *)
Lemma for_range_store (interval runs : nat) :
  forall (n i : nat) (w : World),
    (forall k, k < n -> fetch_returns (remote w (requests_sent w + k)) = true) ->
    exists w',
      for_range_from i n (pull interval runs) w = (Ok tt, w') /\
      remote w' = remote w /\
      requests_sent w' = requests_sent w + n /\
      now w' = (now w + Z.of_nat (n * interval))%Z /\
      file_lines w' = file_lines w + rows_fetched (remote w) (requests_sent w) n
                      + header_written w (rows_fetched (remote w) (requests_sent w) n) /\
      (forall lines, output_file w = Some lines ->
         exists added, output_file w' = Some (lines ++ added) /\
                       List.length added = rows_fetched (remote w) (requests_sent w) n) /\
      (rows_fetched (remote w) (requests_sent w) n = 0 ->
       output_file w' = output_file w /\ dataframe w' = dataframe w).
Proof.
  induction n as [|n IH]; intros i w H.
  - exists w. cbn. unfold header_written.
    split; [reflexivity|]. split; [reflexivity|]. split; [lia|]. split; [lia|].
    split; [destruct (output_file w); cbn; lia|].
    split; [|auto].
    intros lines Hl. exists []. rewrite app_nil_r. auto.
  - destruct (pull_effect interval runs i w) as (w1 & Hp & Hr & Hs & Hn & H0 & H1).
    { specialize (H 0). rewrite Nat.add_0_r in H. apply H. lia. }
    destruct (IH (S i) w1) as (w' & Hloop & Hr' & Hs' & Hn' & Hl' & Hpre' & Hz').
    { intros k Hk. rewrite Hr, Hs.
      replace (S (requests_sent w) + k) with (requests_sent w + S k) by lia.
      apply H. lia. }
    exists w'. rewrite (for_range_step _ _ _ _ _ Hp).
    split; [exact Hloop|].
    rewrite Hr', Hs', Hn', Hl', Hr, Hs, Hn. cbn [rows_fetched].
    set (s := stored_rows (remote w (requests_sent w))) in *.
    set (rest := rows_fetched (remote w) (S (requests_sent w)) n) in *.
    split; [reflexivity|]. split; [lia|]. split; [lia|].
    split; [|split].
    + rewrite (file_lines_step w w1 s (fun E => proj1 (H0 E)) H1).
      rewrite (header_written_step w w1 s rest (fun E => proj1 (H0 E))).
      * lia.
      * intros Hpos. destruct (H1 Hpos) as (added & _ & header & Hf). eauto.
    + intros lines Hlines.
      destruct s as [|s'] eqn:Es.
      * destruct (H0 eq_refl) as [Hf1 _]. rewrite Hlines in Hf1.
        rewrite Hr, Hs in Hpre'. apply (Hpre' lines Hf1).
      * destruct H1 as (added & Hlen & header & Hf1); [lia|].
        rewrite Hlines in Hf1.
        rewrite Hr, Hs in Hpre'.
        destruct (Hpre' _ Hf1) as (added' & Hf' & Hlen').
        exists (added ++ added'). rewrite app_assoc. split; [exact Hf'|].
        rewrite length_app. fold rest in Hlen'. lia.
    + intros Hzero. assert (s = 0 /\ rest = 0) as [Es Er] by lia.
      destruct (H0 Es) as [Hf1 Hd1].
      rewrite Hr, Hs in Hz'. destruct (Hz' Er) as [Hf' Hd'].
      split; congruence.
Qed.

(** X11: the file after a run whose fetches all return holds the lines it
    held before, then one line per record fetched during the run, and one
    header line more when the run had to create it; nothing that was in the
    file is rewritten. *)
Theorem run_appends_fetched_records (interval runs : nat) (w : World) :
  (forall k, k < runs -> fetch_returns (remote w (requests_sent w + k)) = true) ->
  file_lines (snd (automate_data_pull interval runs w))
  = file_lines w + rows_fetched (remote w) (requests_sent w) runs
    + header_written w (rows_fetched (remote w) (requests_sent w) runs) /\
  forall lines, output_file w = Some lines ->
    exists added,
      output_file (snd (automate_data_pull interval runs w)) = Some (lines ++ added) /\
      List.length added = rows_fetched (remote w) (requests_sent w) runs.
Proof.
  intros H.
  destruct (for_range_store interval runs runs 0 w H)
    as (w' & Hloop & _ & _ & _ & Hl & Hpre & _).
  unfold automate_data_pull, for_range. rewrite Hloop. cbn [snd]. auto.
Qed.

Lemma run_appends_fetched_records_witness :
  file_lines (snd (automate_data_pull 60 3 sample_start))
  = file_lines sample_start + rows_fetched (remote sample_start) (requests_sent sample_start) 3
    + header_written sample_start
        (rows_fetched (remote sample_start) (requests_sent sample_start) 3) /\
  forall lines, output_file sample_start = Some lines ->
    exists added,
      output_file (snd (automate_data_pull 60 3 sample_start)) = Some (lines ++ added) /\
      List.length added = rows_fetched (remote sample_start) (requests_sent sample_start) 3.
Proof.
  apply (run_appends_fetched_records 60 3 sample_start).
  intros k Hk. destruct k as [|[|[|k]]]; [reflexivity | reflexivity | reflexivity | lia].
Defined.

Lemma yields_no_data_returns (x : exchange) :
  yields_no_data x = true -> fetch_returns x = true /\ stored_rows x = 0.
Proof.
  destruct x as [e|[|[| | | | |members]]]; cbn; try discriminate; auto.
  destruct (Dict.get "data" members) as [data|]; [|discriminate].
  intros H. rewrite H, orb_true_r. split; [reflexivity|].
  apply negb_true_iff in H.
  destruct data as [| | | |items|]; try reflexivity.
  destruct items; [reflexivity | discriminate].
Qed.

Lemma rows_fetched_none (remote : nat -> exchange) (n start : nat) :
  (forall k, k < n -> stored_rows (remote (start + k)) = 0) ->
  rows_fetched remote start n = 0.
Proof.
  revert start. induction n as [|n IH]; intros start H; cbn; [reflexivity|].
  rewrite IH.
  - specialize (H 0). rewrite Nat.add_0_r in H. rewrite H; lia.
  - intros k Hk. replace (S start + k) with (start + S k) by lia. apply H. lia.
Qed.

(** X12: a run during which no fetch yields data (transport failures,
    empty collections) returns after its [runs] requests and leaves the
    store as it found it: no file is created, an existing file is
    unchanged, and [self.dataframe] keeps its value. *)
Theorem run_without_data_changes_nothing (interval runs : nat) (w : World) :
  (forall k, k < runs -> yields_no_data (remote w (requests_sent w + k)) = true) ->
  exists w',
    automate_data_pull interval runs w = (Ok tt, w') /\
    requests_sent w' = requests_sent w + runs /\
    output_file w' = output_file w /\
    dataframe w' = dataframe w.
Proof.
  intros H.
  destruct (for_range_store interval runs runs 0 w)
    as (w' & Hloop & _ & Hs & _ & _ & _ & Hz).
  { intros k Hk. apply yields_no_data_returns, H, Hk. }
  exists w'. split; [exact Hloop|]. split; [exact Hs|].
  apply Hz, rows_fetched_none.
  intros k Hk. apply yields_no_data_returns, H, Hk.
Qed.

Lemma run_without_data_changes_nothing_witness :
  exists w',
    automate_data_pull 60 3 silent_world = (Ok tt, w') /\
    requests_sent w' = requests_sent silent_world + 3 /\
    output_file w' = output_file silent_world /\
    dataframe w' = dataframe silent_world.
Proof.
  apply (run_without_data_changes_nothing 60 3 silent_world).
  intros k Hk. destruct k as [|[|[|k]]]; [reflexivity | reflexivity | reflexivity | lia].
Defined.

(* ===================================================================== *)
(** * The script                                                          *)
(* ===================================================================== *)

Lemma fetch_data_no_data (w : World) :
  yields_no_data (remote w (requests_sent w)) = true ->
  exists data w',
    fetch_data w = (Ok data, w') /\ truthy data = false /\
    remote w' = remote w /\
    requests_sent w' = S (requests_sent w) /\
    output_file w' = output_file w /\ dataframe w' = dataframe w /\
    sleeps (trace w') = sleeps (trace w) /\
    fetch_attempts (trace w') = S (fetch_attempts (trace w)).
Proof.
  intros H.
  destruct (remote w (requests_sent w)) as [e|text] eqn:Hx; cbn [yields_no_data] in H.
  - exists JNull. eexists. split; [apply fetch_data_transport; eassumption|].
    cbn. rewrite !sleeps_app, !fetch_attempts_app. cbn. repeat split; lia.
  - destruct text as [|doc]; [discriminate|].
    destruct doc as [| | | | |members]; try discriminate.
    destruct (Dict.get "data" members) as [data|] eqn:Hd; [|discriminate].
    exists data. eexists. split; [apply (fetch_data_success w members); eassumption|].
    apply negb_true_iff in H.
    cbn. rewrite !sleeps_app, !fetch_attempts_app. cbn. repeat split; auto; lia.
Qed.

(** The part of the script before [load_data], when no fetch yields
    data. *)
Lemma script_without_data (w : World) :
  (forall k, k < 4 -> yields_no_data (remote w (requests_sent w + k)) = true) ->
  exists w1 data w2,
    automate_data_pull 60 3 w = (Ok tt, w1) /\
    fetch_data w1 = (Ok data, w2) /\
    truthy data = false /\
    requests_sent w2 = requests_sent w + 4 /\
    fetch_attempts (trace w2) = fetch_attempts (trace w) + 4 /\
    sleeps (trace w2) = sleeps (trace w) + 3 /\
    output_file w2 = output_file w /\
    dataframe w2 = dataframe w.
Proof.
  intros H.
  destruct (for_range_store 60 3 3 0 w) as (w1 & Hloop & Hr1 & Hs1 & _ & _ & _ & Hz).
  { intros k Hk. apply yields_no_data_returns, H. lia. }
  destruct (for_range_returns 60 3 3 0 w) as (w1' & Hloop' & _ & _ & Hg1 & Hsl1 & _).
  { intros k Hk. apply yields_no_data_returns, H. lia. }
  rewrite Hloop in Hloop'. injection Hloop' as <-.
  destruct Hz as [Hf1 Hd1].
  { apply rows_fetched_none. intros k Hk. apply yields_no_data_returns, H. lia. }
  destruct (fetch_data_no_data w1) as (data & w2 & Hfetch & Ht & _ & Hs2 & Hf2 & Hd2 & Hsl2 & Hg2).
  { rewrite Hr1, Hs1. apply H. lia. }
  exists w1, data, w2. unfold automate_data_pull, for_range.
  split; [exact Hloop|]. split; [exact Hfetch|]. split; [exact Ht|].
  rewrite Hs2, Hg2, Hsl2, Hf2, Hd2, Hs1, Hg1, Hsl1, Hf1, Hd1.
  repeat split; lia.
Qed.

(** X13: when none of the four fetches of the script yields data and no
    file exists, the script ends normally after four requests and three
    sleeps: [load_data] reports that no file was found, and the
    transformation, the charts and the filter are not run at all. *)
Theorem main_without_data_ends_quietly (analysis : DataFrame -> M unit) (w : World) :
  output_file w = None ->
  (forall k, k < 4 -> yields_no_data (remote w (requests_sent w + k)) = true) ->
  exists w',
    main analysis w = (Ok tt, w') /\
    main (fun _ => raise OutsideModel) w = (Ok tt, w') /\
    requests_sent w' = requests_sent w + 4 /\
    sleeps (trace w') = sleeps (trace w) + 3 /\
    output_file w' = None /\
    last (trace w') Get = Print NoDataFileFound.
Proof.
  intros Hfile H.
  destruct (script_without_data w H)
    as (w1 & data & w2 & Hrun & Hfetch & Ht & Hs & _ & Hsl & Hf & _).
  rewrite Hfile in Hf.
  assert (Hload : load_data w2 = (Ok None, logged (Print NoDataFileFound) w2)).
  { unfold load_data, bind, isfile. rewrite Hf. reflexivity. }
  assert (Hmain : forall a, main a w = (Ok tt, logged (Print NoDataFileFound) w2)).
  { intros a. unfold main, bind. rewrite Hrun, Hfetch, Ht. unfold ret at 1.
    rewrite Hload. reflexivity. }
  exists (logged (Print NoDataFileFound) w2).
  split; [apply Hmain|]. split; [apply Hmain|].
  cbn. rewrite sleeps_app. cbn. rewrite last_last.
  repeat split; auto; lia.
Qed.

Lemma main_without_data_ends_quietly_witness :
  exists w',
    main (fun _ => ret tt) silent_world = (Ok tt, w') /\
    main (fun _ => raise OutsideModel) silent_world = (Ok tt, w') /\
    requests_sent w' = requests_sent silent_world + 4 /\
    sleeps (trace w') = sleeps (trace silent_world) + 3 /\
    output_file w' = None /\
    last (trace w') Get = Print NoDataFileFound.
Proof.
  apply (main_without_data_ends_quietly (fun _ => ret tt) silent_world).
  - reflexivity.
  - intros k Hk. destruct k as [|[|[|[|k]]]];
      [reflexivity | reflexivity | reflexivity | reflexivity | lia].
Defined.

Lemma load_data_of_file (w : World) (lines : csv) :
  output_file w = Some lines ->
  load_data w =
  (match parse_csv lines with
   | Ok df => Ok (Some df)
   | Raise e => Raise e
   end, w).
Proof.
  intros Hfile. unfold load_data, bind, isfile, read_csv, ret. rewrite !Hfile.
  destruct (parse_csv lines); reflexivity.
Qed.

(** X14: with a file and four fetches without data, the run leaves the
    file as it is, and the script then hands to the analysis the table that
    [pd.read_csv] reads from that file, after four requests and three
    sleeps; when the file does not parse, the script ends with the
    exception of the parser and the analysis is not run. *)
Theorem main_analyses_stored_table (analysis : DataFrame -> M unit) (w : World)
        (lines : csv) :
  output_file w = Some lines ->
  (forall k, k < 4 -> yields_no_data (remote w (requests_sent w + k)) = true) ->
  exists w2,
    main analysis w =
      match parse_csv lines with
      | Ok df => analysis df w2
      | Raise e => (Raise e, w2)
      end /\
    requests_sent w2 = requests_sent w + 4 /\
    sleeps (trace w2) = sleeps (trace w) + 3 /\
    output_file w2 = Some lines.
Proof.
  intros Hfile H.
  destruct (script_without_data w H)
    as (w1 & d & w2 & Hrun & Hfetch & Ht & Hs & _ & Hsl & Hf & _).
  rewrite Hfile in Hf.
  exists w2. split; [|auto].
  unfold main, bind. rewrite Hrun, Hfetch, Ht. unfold ret at 1.
  rewrite (load_data_of_file _ _ Hf).
  destruct (parse_csv lines); reflexivity.
Qed.

Lemma main_analyses_stored_table_witness :
  exists w2,
    main (fun _ => ret tt)
         (mkWorld (remote silent_world) 0 0%Z
                  (Some [[Text "name"]; [Text "Bitcoin"]]) empty_frame [])
    = match parse_csv [[Text "name"]; [Text "Bitcoin"]] with
      | Ok df => (fun _ => ret tt) df w2
      | Raise e => (Raise e, w2)
      end /\
    requests_sent w2 = 0 + 4 /\
    sleeps (trace w2) = 0 + 3 /\
    output_file w2 = Some [[Text "name"]; [Text "Bitcoin"]].
Proof.
  apply (main_analyses_stored_table (fun _ => ret tt)
           (mkWorld (remote silent_world) 0 0%Z
                    (Some [[Text "name"]; [Text "Bitcoin"]]) empty_frame [])
           [[Text "name"]; [Text "Bitcoin"]]).
  - reflexivity.
  - intros k Hk. destruct k as [|[|[|[|k]]]];
      [reflexivity | reflexivity | reflexivity | reflexivity | lia].
Defined.

(* ===================================================================== *)
(** * More on the reshaper                                                *)
(* ===================================================================== *)

Lemma tidy_rows_name (e : string) (rs : Table) (x : Tidy) :
  In x (tidy_rows e rs) -> tidy_name x = e.
Proof.
  unfold tidy_rows. intros H. apply in_flat_map in H as (ch & _ & H).
  destruct (mean (map (column (fst ch)) rs)); [|destruct H].
  destruct H as [<-|[]]. reflexivity.
Qed.

(** The labels of the tidy rows of one entity: some of the six, in order,
    none twice. *)
Lemma tidy_rows_labels (e : string) (rs : Table) :
  map key (tidy_rows e rs) = map (pair e) (map Percent_Change (tidy_rows e rs)) /\
  NoDup (map Percent_Change (tidy_rows e rs)) /\
  incl (map Percent_Change (tidy_rows e rs)) horizon_labels /\
  List.length (tidy_rows e rs) <= 6.
Proof.
  unfold tidy_rows. cbn [combine percent_columns horizon_labels flat_map fst snd].
  destruct (mean (map (column "quote.USD.percent_change_1h") rs)),
           (mean (map (column "quote.USD.percent_change_24h") rs)),
           (mean (map (column "quote.USD.percent_change_7d") rs)),
           (mean (map (column "quote.USD.percent_change_30d") rs)),
           (mean (map (column "quote.USD.percent_change_60d") rs)),
           (mean (map (column "quote.USD.percent_change_90d") rs));
    cbn [app map key tidy_name Percent_Change List.length];
    (split; [reflexivity|]);
    (split; [repeat (constructor; [cbn; intuition discriminate|]); constructor|]);
    (split; [intros x Hx; cbn in Hx |- *; intuition | lia]).
Qed.

Lemma NoDup_flat_map_pairs (f : string -> list string) (es : list string) :
  NoDup es -> (forall e, NoDup (f e)) ->
  NoDup (flat_map (fun e => map (pair e) (f e)) es).
Proof.
  intros Hes Hf. induction Hes as [|e es He Hes IH]; cbn; [constructor|].
  apply NoDup_app.
  - generalize (Hf e). generalize (f e) as l. intros l Hl.
    induction Hl as [|b l Hb Hl IHl]; cbn; constructor; [|exact IHl].
    intros Hin. apply in_map_iff in Hin as (y & Hy & Hin). congruence.
  - exact IH.
  - intros [x y] H1 H2. apply in_map_iff in H1 as (y' & Hy & _).
    apply in_flat_map in H2 as (e' & He' & H2).
    apply in_map_iff in H2 as (y'' & Hy'' & _). congruence.
Qed.

(** X15: for every loaded table, with or without missing values,
    [transform_data] gives no pair of an entity and a horizon twice; each of
    its rows bears the name of an entity of the table and one of the six
    horizon labels, and there are at most 6 x N rows. *)
Theorem transform_never_repeats_a_pair (t : Table) :
  NoDup (map key (transform_data t)) /\
  (forall x, In x (transform_data t) ->
             In (tidy_name x) (entities t) /\ In (Percent_Change x) horizon_labels) /\
  List.length (transform_data t) <= 6 * List.length (entities t).
Proof.
  rewrite transform_data_by_entity. split; [|split].
  - rewrite map_flat_map.
    rewrite (flat_map_ext _ (fun e => map (pair e)
                                        (map Percent_Change (tidy_rows e (rows_of e t))))).
    + apply NoDup_flat_map_pairs; [apply NoDup_entities|].
      intros e. apply tidy_rows_labels.
    + intros e. apply tidy_rows_labels.
  - intros x Hx. apply in_flat_map in Hx as (e & He & Hx).
    rewrite (tidy_rows_name _ _ _ Hx). split; [exact He|].
    destruct (tidy_rows_labels e (rows_of e t)) as (_ & _ & Hincl & _).
    apply Hincl, in_map, Hx.
  - induction (entities t) as [|e es IH]; cbn [flat_map List.length]; [lia|].
    rewrite length_app.
    destruct (tidy_rows_labels e (rows_of e t)) as (_ & _ & _ & Hlen). lia.
Qed.

Lemma entities_named (t : Table) : entities (filter has_name t) = entities t.
Proof.
  induction t as [|r t IH]; cbn; [reflexivity|].
  unfold has_name at 1. destruct (name r) as [n|] eqn:Hn; cbn; [|exact IH].
  rewrite Hn, IH. reflexivity.
Qed.

Lemma rows_of_named (e : string) (t : Table) :
  rows_of e (filter has_name t) = rows_of e t.
Proof.
  unfold rows_of. induction t as [|r t IH]; cbn; [reflexivity|].
  unfold has_name at 1, name_is at 2. destruct (name r) as [n|] eqn:Hn; cbn.
  - unfold name_is at 1. rewrite Hn, IH. reflexivity.
  - exact IH.
Qed.

(** X16: rows whose name is missing take no part in the transformation:
    the tidy table of a table is that of its named rows. *)
Theorem transform_ignores_unnamed_rows (t : Table) :
  transform_data (filter has_name t) = transform_data t.
Proof.
  rewrite !transform_data_by_entity, entities_named.
  apply flat_map_ext. intros e. rewrite rows_of_named. reflexivity.
Qed.

Lemma rows_of_nonempty_entity (e : string) (t : Table) (r : Row) :
  In r (rows_of e t) -> In e (entities t).
Proof.
  intros H. apply in_entities. apply filter_names in H as [Hin Hn]. eauto.
Qed.

Lemma mean_singleton (q : Q) : mean [Some q] = Some (Qred q).
Proof.
  unfold mean. cbn [dropna List.length]. f_equal.
  apply Qred_complete. unfold total. cbn [fold_left].
  unfold Qeq, Qdiv, Qmult, Qplus, Qinv, inject_Z. destruct q as [a b]. cbn.
  rewrite !Z.mul_1_r, Pos.mul_1_r. reflexivity.
Qed.

(** X17: for an entity with a single row in the table (a file of one
    batch), the tidy value of each horizon is the value of that row, in
    lowest terms. *)
Theorem single_row_keeps_its_values (t : Table) (e : string) (r : Row)
        (c h : string) (q : Q) :
  rows_of e t = [r] ->
  In (c, h) (combine percent_columns horizon_labels) ->
  column c r = Some q ->
  In (mkTidy e h (Qred q)) (transform_data t) /\ (Qred q == q)%Q.
Proof.
  intros Hrows Hch Hq. split; [|apply Qred_correct].
  rewrite transform_data_by_entity. apply in_flat_map. exists e. split.
  - apply (rows_of_nonempty_entity e t r). rewrite Hrows. left. reflexivity.
  - rewrite Hrows. unfold tidy_rows. apply in_flat_map. exists (c, h).
    split; [exact Hch|]. cbn [fst snd map]. rewrite Hq, mean_singleton.
    left. reflexivity.
Qed.

Lemma single_row_keeps_its_values_witness :
  In (mkTidy "Bitcoin" "90d" (Qred (12 # 2)))
     (transform_data [bitcoin_row (Some (12 # 2)%Q)]) /\
  (Qred (12 # 2) == 12 # 2)%Q.
Proof.
  apply (single_row_keeps_its_values [bitcoin_row (Some (12 # 2)%Q)] "Bitcoin"
           (bitcoin_row (Some (12 # 2)%Q)) "quote.USD.percent_change_90d" "90d" (12 # 2)%Q).
  - reflexivity.
  - cbn. auto 10.
  - reflexivity.
Defined.

(* ===================================================================== *)
(** * More on the filter                                                  *)
(* ===================================================================== *)

Lemma string_app_assoc (a b c : string) : ((a ++ b) ++ c = a ++ (b ++ c))%string.
Proof. induction a as [|x a IH]; cbn; [reflexivity | rewrite IH; reflexivity]. Qed.


(** A literal that starts with plain characters. *)
Lemma scan_literal_plain_prefix (s rest : string) :
  plain s = true ->
  scan_literal (s ++ rest) =
  match scan_literal rest with
  | Closed value after => Closed (s ++ value) after
  | other => other
  end.
Proof.
  unfold plain. induction s as [|c s IH]; intros H.
  - cbn. destruct (scan_literal rest); reflexivity.
  - cbn [list_ascii_of_string forallb] in H. apply andb_true_iff in H as [Hc Hs].
    cbn [String.append scan_literal].
    cbv zeta in Hc. apply negb_true_iff in Hc.
    apply orb_false_iff in Hc as [Hc H13]. apply orb_false_iff in Hc as [Hc H10].
    apply orb_false_iff in Hc as [H34 H92].
    cbv zeta. rewrite H34, H92, H10, H13. cbn [orb].
    rewrite (IH Hs). destruct (scan_literal rest); reflexivity.
Qed.

Lemma query_expression (dataframe : Table) (coin_name : string) :
  filter_coin_data dataframe coin_name =
  match scan_literal (coin_name ++ dquote) with
  | Closed value EmptyString => Ok (filter (name_is value) dataframe)
  | Closed _ _ => Raise OutsideModel
  | Unterminated => Raise SyntaxError
  | NotDescribed => Raise OutsideModel
  end.
Proof. reflexivity. Qed.




(** X21: every name that ends with a backslash after plain characters
    makes [filter_coin_data] raise, whatever the table: the backslash takes
    the closing quote of the literal into the literal. *)
Theorem filter_raises_on_final_backslash (dataframe : Table) (prefix : string) :
  plain prefix = true ->
  filter_coin_data dataframe (prefix ++ one_backslash) = Raise SyntaxError.
Proof.
  intros H. rewrite query_expression.
  rewrite string_app_assoc.
  rewrite (scan_literal_plain_prefix _ _ H). reflexivity.
Qed.

Lemma filter_raises_on_final_backslash_witness :
  filter_coin_data [named "Wrapped"] ("Wrapped" ++ one_backslash) = Raise SyntaxError.
Proof.
  apply (filter_raises_on_final_backslash [named "Wrapped"] "Wrapped"). reflexivity.
Defined.



(* ===================================================================== *)
(** * Filtering, then reshaping                                           *)
(* ===================================================================== *)


Lemma tidy_rows_nil (e : string) : tidy_rows e [] = [].
Proof. reflexivity. Qed.






(* ===================================================================== *)
(** * Flattening a listing                                                *)
(* ===================================================================== *)

Lemma dict_set_new {A} (k : string) (v : A) (d : Dict.t A) :
  ~ In k (Dict.keys d) -> Dict.set k v d = d ++ [(k, v)].
Proof.
  induction d as [|[k' v'] d IH]; cbn; intros H; [reflexivity|].
  destruct (String.eqb k k') eqn:E.
  - apply String.eqb_eq in E. exfalso. apply H. left. congruence.
  - rewrite IH; [reflexivity|]. intros Hin. apply H. right. exact Hin.
Qed.

Lemma normalise_json_cons (kv : string * json) (fields : list (string * json))
      (p : string) (acc : Dict.t json) :
  normalise_json (JObj (kv :: fields)) p acc
  = normalise_json (JObj fields) p (normalise_json (snd kv) (new_key p (fst kv)) acc).
Proof. destruct kv. reflexivity. Qed.

Lemma string_app_inj (p a b : string) : (p ++ a = p ++ b)%string -> a = b.
Proof.
  induction p as [|c p IH]; cbn; intros H; [exact H|].
  injection H as H. apply IH, H.
Qed.

(** Scalars under a non-empty path: each goes to the column named by the
    path, a dot and its key. *)
Lemma normalise_json_scalars (p : string) (fields : list (string * json)) :
  p <> EmptyString ->
  Forall (fun kv => is_dict (snd kv) = false) fields ->
  NoDup (map fst fields) ->
  forall acc,
    (forall k, In k (map fst fields) -> ~ In (p ++ "." ++ k)%string (Dict.keys acc)) ->
    normalise_json (JObj fields) p acc
    = acc ++ map (fun kv => ((p ++ "." ++ fst kv)%string, snd kv)) fields.
Proof.
  intros Hp Hsc. induction Hsc as [|[k v] fields Hv Hsc IH]; intros Hnd acc Hacc.
  - cbn. rewrite app_nil_r. reflexivity.
  - rewrite normalise_json_cons. cbn [fst snd] in *.
    apply NoDup_cons_iff in Hnd as [Hk Hnd].
    assert (Hnk : new_key p k = (p ++ "." ++ k)%string).
    { unfold new_key. destruct (String.eqb p EmptyString) eqn:E; [|reflexivity].
      apply String.eqb_eq in E. contradiction. }
    assert (Hset : normalise_json v (new_key p k) acc = acc ++ [((p ++ "." ++ k)%string, v)]).
    { rewrite Hnk. destruct v; try discriminate Hv; apply dict_set_new, Hacc; left; reflexivity. }
    rewrite Hset, IH; [| exact Hnd |].
    + rewrite <- app_assoc. reflexivity.
    + intros k' Hk' Hin. unfold Dict.keys in Hin. rewrite map_app in Hin.
      apply in_app_or in Hin as [Hin|[Hin|[]]].
      * apply (Hacc k'); [right; exact Hk' | exact Hin].
      * cbn in Hin. apply string_app_inj in Hin.
        apply (string_app_inj ".") in Hin. subst k'. contradiction.
Qed.

Lemma merge_disjoint {A} (d2 d1 : Dict.t A) :
  NoDup (Dict.keys d2) ->
  (forall k, In k (Dict.keys d2) -> ~ In k (Dict.keys d1)) ->
  Dict.merge d1 d2 = d1 ++ d2.
Proof.
  unfold Dict.merge. revert d1. induction d2 as [|[k v] d2 IH]; intros d1 Hnd Hdis; cbn.
  - rewrite app_nil_r. reflexivity.
  - cbn in Hnd. apply NoDup_cons_iff in Hnd as [Hk Hnd].
    rewrite dict_set_new by (apply Hdis; left; reflexivity).
    rewrite IH; [rewrite <- app_assoc; reflexivity | exact Hnd |].
    intros k' Hk' Hin. unfold Dict.keys in Hin. rewrite map_app in Hin.
    apply in_app_or in Hin as [Hin|[Hin|[]]].
    + apply (Hdis k'); [right; exact Hk' | exact Hin].
    + cbn in Hin. subst k'. contradiction.
Qed.

Lemma NoDup_map_prefix (p : string) (ks : list string) :
  NoDup ks -> NoDup (map (String.append p) ks).
Proof.
  induction 1 as [|k ks Hk Hnd IH]; cbn; constructor; [|exact IH].
  intros Hin. apply in_map_iff in Hin as (k' & Hk' & Hin).
  apply string_app_inj in Hk'. subst k'. contradiction.
Qed.

(** X24: a listing record (scalar members, then the member [quote] with
    the conversion [USD] and its scalar metrics) is flattened into its
    scalar members followed by one column [quote.USD.<metric>] per metric,
    in the order of the payload: the columns that [transform_data]
    reads. *)
Theorem listing_record_is_flattened (tops metrics : list (string * json)) :
  Forall (fun kv => is_dict (snd kv) = false) tops ->
  Forall (fun kv => is_dict (snd kv) = false) metrics ->
  NoDup (map fst metrics) ->
  (forall k, In k (map fst metrics) -> ~ In ("quote.USD." ++ k)%string (map fst tops)) ->
  normalise_json_ordered (tops ++ [("quote", JObj [("USD", JObj metrics)])])
  = tops ++ map (fun kv => (("quote.USD." ++ fst kv)%string, snd kv)) metrics.
Proof.
  intros Htops Hmetrics Hnd Hdis.
  unfold normalise_json_ordered.
  assert (Htop : filter (fun kv : string * json => negb (is_dict (snd kv)))
                        (tops ++ [("quote", JObj [("USD", JObj metrics)])]) = tops).
  { rewrite filter_app. cbn. rewrite app_nil_r.
    clear Hdis. induction Htops as [|kv tops Hkv _ IH]; cbn; [reflexivity|].
    rewrite Hkv, IH. reflexivity. }
  assert (Hnested : filter (fun kv : string * json => is_dict (snd kv))
                           (tops ++ [("quote", JObj [("USD", JObj metrics)])])
                    = [("quote", JObj [("USD", JObj metrics)])]).
  { rewrite filter_app. cbn.
    clear Hdis Htop. induction Htops as [|kv tops Hkv _ IH]; cbn; [reflexivity|].
    rewrite Hkv, IH. reflexivity. }
  rewrite Htop, Hnested.
  rewrite normalise_json_cons. cbn [fst snd].
  change (normalise_json (JObj []) EmptyString
            (normalise_json (JObj [("USD", JObj metrics)]) (new_key EmptyString "quote") []))
    with (normalise_json (JObj metrics) "quote.USD" []).
  rewrite (normalise_json_scalars "quote.USD" metrics);
    [| discriminate | exact Hmetrics | exact Hnd | intros k _ [] ].
  cbn [app].
  apply merge_disjoint.
  - unfold Dict.keys. rewrite map_map. cbn [fst].
    rewrite <- (map_map fst (String.append "quote.USD.")).
    apply NoDup_map_prefix, Hnd.
  - intros k Hk. unfold Dict.keys in Hk. rewrite map_map in Hk. cbn [fst] in Hk.
    apply in_map_iff in Hk as (kv & <- & Hkv).
    apply Hdis, in_map, Hkv.
Qed.

Lemma listing_record_is_flattened_witness :
  normalise_json_ordered
    ([("name", JStr "Bitcoin"); ("symbol", JStr "BTC")]
     ++ [("quote", JObj [("USD", JObj [("price", JNum 1%Q);
                                       ("percent_change_1h", JNum 2%Q)])])])
  = [("name", JStr "Bitcoin"); ("symbol", JStr "BTC")]
    ++ map (fun kv => (("quote.USD." ++ fst kv)%string, snd kv))
           [("price", JNum 1%Q); ("percent_change_1h", JNum 2%Q)].
Proof.
  apply (listing_record_is_flattened
           [("name", JStr "Bitcoin"); ("symbol", JStr "BTC")]
           [("price", JNum 1%Q); ("percent_change_1h", JNum 2%Q)]).
  - repeat constructor.
  - repeat constructor.
  - repeat (constructor; [cbn; intuition discriminate|]). constructor.
  - cbn. intuition discriminate.
Defined.

(* ===================================================================== *)
(** * Loading                                                             *)
(* ===================================================================== *)





(* ===================================================================== *)
(** * Grouping and averaging on binary64 numbers                          *)
(* ===================================================================== *)

Lemma entities_names_only (t : Binary64.Table) :
  Binary64.entities t = entities (map Binary64.names_only t).
Proof.
  induction t as [|a t IH]; cbn; [reflexivity|].
  destruct (Binary64.name a); rewrite IH; reflexivity.
Qed.

Lemma in_binary64_entities (t : Binary64.Table) (n : string) :
  In n (Binary64.entities t) <-> exists r, In r t /\ Binary64.name r = Some n.
Proof.
  rewrite entities_names_only, in_entities. split.
  - intros (q & Hq & Hn). apply in_map_iff in Hq as (r & <- & Hr).
    exists r. split; [exact Hr | exact Hn].
  - intros (r & Hr & Hn). exists (Binary64.names_only r).
    split; [apply in_map, Hr | exact Hn].
Qed.

Lemma NoDup_binary64_entities (t : Binary64.Table) : NoDup (Binary64.entities t).
Proof. rewrite entities_names_only. apply NoDup_entities. Qed.

Lemma binary64_entities_snoc (t : Binary64.Table) (r : Binary64.Row) :
  Binary64.entities (t ++ [r]) =
  match Binary64.name r with
  | Some n => if existsb (String.eqb n) (Binary64.entities t)
              then Binary64.entities t
              else Binary64.entities t ++ [n]
  | None => Binary64.entities t
  end.
Proof.
  rewrite !entities_names_only, map_app. cbn [map].
  rewrite entities_snoc. reflexivity.
Qed.

Lemma binary64_rows_of_snoc (e : string) (t : Binary64.Table) (r : Binary64.Row) :
  Binary64.rows_of e (t ++ [r]) =
  Binary64.rows_of e t ++ (if Binary64.name_is e r then [r] else []).
Proof. unfold Binary64.rows_of. rewrite filter_app. reflexivity. Qed.

Lemma binary64_rows_of_unseen (e : string) (t : Binary64.Table) :
  ~ In e (Binary64.entities t) -> Binary64.rows_of e t = [].
Proof.
  intros H. unfold Binary64.rows_of.
  induction t as [|a t IH]; cbn; [reflexivity|].
  destruct (Binary64.name_is e a) eqn:Ha.
  - exfalso. apply H. apply in_binary64_entities. exists a.
    split; [left; reflexivity|].
    unfold Binary64.name_is in Ha. destruct (Binary64.name a) as [n|]; [|discriminate].
    apply String.eqb_eq in Ha. congruence.
  - apply IH. intros Hin. apply H. apply in_binary64_entities.
    apply in_binary64_entities in Hin as (r & Hr & Hn).
    exists r. split; [right|]; assumption.
Qed.

Lemma cells_of_snoc (rs : Binary64.Table) (r : Binary64.Row) :
  Binary64.cells_of (rs ++ [r]) = Binary64.add_row r (Binary64.cells_of rs).
Proof. unfold Binary64.cells_of. rewrite fold_left_app. reflexivity. Qed.

Lemma binary64_group_known (key : string) (r : Binary64.Row)
      (F : string -> list Binary64.Acc) (E : list string) :
  In key E -> NoDup E ->
  Binary64.add_to_group key r (map (fun e => (e, F e)) E) =
  map (fun e => (e, if String.eqb key e then Binary64.add_row r (F e) else F e)) E.
Proof.
  induction E as [|a E IH]; intros Hin Hnd; [destruct Hin|].
  apply NoDup_cons_iff in Hnd as [Ha Hnd]. cbn [map Binary64.add_to_group].
  destruct (String.eqb key a) eqn:Eq.
  - apply String.eqb_eq in Eq. subst a. f_equal.
    apply map_ext_in. intros e He.
    destruct (String.eqb key e) eqn:Eq'; [|reflexivity].
    apply String.eqb_eq in Eq'. subst e. contradiction.
  - f_equal. apply IH; [|exact Hnd].
    destruct Hin as [->|Hin]; [|exact Hin].
    rewrite String.eqb_refl in Eq. discriminate.
Qed.

Lemma binary64_group_new (key : string) (r : Binary64.Row)
      (F : string -> list Binary64.Acc) (E : list string) :
  ~ In key E ->
  Binary64.add_to_group key r (map (fun e => (e, F e)) E) =
  map (fun e => (e, F e)) E ++ [(key, Binary64.cells_of [r])].
Proof.
  induction E as [|a E IH]; intros Hin; cbn [map Binary64.add_to_group app];
    [reflexivity|].
  destruct (String.eqb key a) eqn:Eq.
  - apply String.eqb_eq in Eq. subst a. exfalso. apply Hin. left. reflexivity.
  - f_equal. apply IH. intros H. apply Hin. right. exact H.
Qed.

(** The pass over the rows leaves one group per entity, in first-seen
    order, holding the cells of the rows of that entity. *)
Lemma binary64_pass_by_entity (t : Binary64.Table) :
  fold_left (fun groups r =>
               match Binary64.name r with
               | Some key => Binary64.add_to_group key r groups
               | None => groups
               end) t []
  = map (fun e => (e, Binary64.cells_of (Binary64.rows_of e t))) (Binary64.entities t).
Proof.
  induction t as [|r t IH] using rev_ind; [reflexivity|].
  rewrite fold_left_app, IH. cbn [fold_left].
  rewrite binary64_entities_snoc.
  destruct (Binary64.name r) as [n|] eqn:Hn.
  - destruct (existsb (String.eqb n) (Binary64.entities t)) eqn:Hin.
    + rewrite (binary64_group_known n r
                 (fun e => Binary64.cells_of (Binary64.rows_of e t)));
        [| apply existsb_eqb_In, Hin | apply NoDup_binary64_entities].
      apply map_ext. intros e. rewrite binary64_rows_of_snoc.
      unfold Binary64.name_is. rewrite Hn.
      destruct (String.eqb n e);
        [rewrite cells_of_snoc; reflexivity | rewrite app_nil_r; reflexivity].
    + assert (Hnot : ~ In n (Binary64.entities t)).
      { intros H. apply existsb_eqb_In in H. congruence. }
      rewrite (binary64_group_new n r
                 (fun e => Binary64.cells_of (Binary64.rows_of e t)))
        by exact Hnot.
      rewrite map_app. cbn [map]. apply f_equal2.
      * apply map_ext_in. intros e He. rewrite binary64_rows_of_snoc.
        unfold Binary64.name_is. rewrite Hn.
        destruct (String.eqb n e) eqn:E; [|rewrite app_nil_r; reflexivity].
        apply String.eqb_eq in E. subst e. contradiction.
      * rewrite binary64_rows_of_snoc, (binary64_rows_of_unseen n t Hnot).
        unfold Binary64.name_is. rewrite Hn, String.eqb_refl. reflexivity.
  - apply map_ext. intros e. rewrite binary64_rows_of_snoc.
    unfold Binary64.name_is. rewrite Hn. rewrite app_nil_r. reflexivity.
Qed.

Lemma combine_map_self {A B} (f : A -> B) (l : list A) :
  combine l (map f l) = map (fun x => (x, f x)) l.
Proof.
  induction l as [|x l IH]; cbn; [reflexivity|]. rewrite IH. reflexivity.
Qed.

(** Each cell of a group meets the values of its own column, in row
    order. *)
Lemma cells_by_column (rs : Binary64.Table) (a : string -> Binary64.Acc) :
  fold_left (fun accs r => Binary64.add_row r accs) rs (map a percent_columns)
  = map (fun c => fold_left Binary64.add_value (map (Binary64.column c) rs) (a c))
        percent_columns.
Proof.
  revert a. induction rs as [|r rs IH]; intros a; [reflexivity|].
  cbn [fold_left map].
  unfold Binary64.add_row at 2.
  rewrite combine_map_self, map_map. cbn [fst snd].
  apply (IH (fun c => Binary64.add_value (a c) (Binary64.column c r))).
Qed.

(** The mean of a cell that met the values [vals] is their binary64 mean. *)
Lemma result_of_values (vals : list PrimFloat.float) (s c : PrimFloat.float) (n : nat) :
  Binary64.result (fold_left Binary64.add_value vals (Binary64.mkAcc s c n))
  = Binary64.mean_from vals s c n.
Proof.
  revert s c n. induction vals as [|v vals IH]; intros s c n; [reflexivity|].
  cbn [fold_left Binary64.mean_from].
  unfold Binary64.add_value at 2.
  cbn [Binary64.sumx Binary64.compensation Binary64.nobs].
  destruct (Binary64.isnan v); apply IH.
Qed.

Lemma binary64_means_of_group (rs : Binary64.Table) :
  map (fun ca => (fst ca, Binary64.result (snd ca)))
      (combine percent_columns (Binary64.cells_of rs))
  = map (fun c => (c, Binary64.mean_of (map (Binary64.column c) rs))) percent_columns.
Proof.
  unfold Binary64.cells_of.
  rewrite (cells_by_column rs (fun _ => Binary64.start)).
  rewrite combine_map_self, map_map. cbn [fst snd].
  apply map_ext. intros c. f_equal. apply result_of_values.
Qed.

(** Stacking the six means of one group and relabelling them. *)
Lemma binary64_stack_one_group (e : string) (m : string -> PrimFloat.float) :
  map (fun x => match x with
                | (n, level_1, v) =>
                    Binary64.mkTidy n (replace percent_columns horizon_labels level_1) v
                end)
      (flat_map (fun cv => if Binary64.isnan (snd cv) then []
                           else [(e, fst cv, snd cv)])
                (map (fun c => (c, m c)) percent_columns))
  = flat_map (fun ch => if Binary64.isnan (m (fst ch)) then []
                        else [Binary64.mkTidy e (snd ch) (m (fst ch))])
             (combine percent_columns horizon_labels).
Proof.
  cbn.
  destruct (Binary64.isnan (m "quote.USD.percent_change_1h")),
           (Binary64.isnan (m "quote.USD.percent_change_24h")),
           (Binary64.isnan (m "quote.USD.percent_change_7d")),
           (Binary64.isnan (m "quote.USD.percent_change_30d")),
           (Binary64.isnan (m "quote.USD.percent_change_60d")),
           (Binary64.isnan (m "quote.USD.percent_change_90d"));
    reflexivity.
Qed.

Lemma binary64_transform_by_entity (t : Binary64.Table) :
  Binary64.transform_data t =
  flat_map (fun e => Binary64.tidy_rows e (Binary64.rows_of e t)) (Binary64.entities t).
Proof.
  unfold Binary64.transform_data, Binary64.stack, Binary64.grouped_mean.
  rewrite binary64_pass_by_entity, map_map, flat_map_map, map_flat_map.
  apply flat_map_ext. intros e. cbn [fst snd].
  rewrite binary64_means_of_group.
  apply (binary64_stack_one_group e
           (fun c => Binary64.mean_of (map (Binary64.column c) (Binary64.rows_of e t)))).
Qed.




Lemma flat_map_agree {A B} (f g : A -> list B) (l : list A) :
  (forall x, In x l -> f x = g x) -> flat_map f l = flat_map g l.
Proof.
  induction l as [|x l IH]; intros H; cbn; [reflexivity|].
  rewrite (H x (or_introl eq_refl)), IH; [reflexivity|].
  intros y Hy. apply H. right. exact Hy.
Qed.

(** X18: the tidy table depends on the order of the rows only through the
    order in which the entities first appear and, for each entity, the order
    of its own rows: two tables that agree on these give the same tidy
    table, values included, however the rows of different entities are
    interleaved. *)
Theorem transform_depends_on_rows_per_entity (t t' : Binary64.Table) :
  Binary64.entities t' = Binary64.entities t ->
  (forall e, In e (Binary64.entities t) ->
             Binary64.rows_of e t' = Binary64.rows_of e t) ->
  Binary64.transform_data t' = Binary64.transform_data t.
Proof.
  intros Hent Hrows. rewrite !binary64_transform_by_entity, Hent.
  apply flat_map_agree. intros e He. rewrite (Hrows e He). reflexivity.
Qed.

Lemma transform_depends_on_rows_per_entity_witness :
  Binary64.transform_data Binary64.grouped_rows
  = Binary64.transform_data Binary64.interleaved.
Proof.
  apply transform_depends_on_rows_per_entity.
  - reflexivity.
  - intros e He. vm_compute in He.
    destruct He as [<-|[<-|[]]]; reflexivity.
Defined.
